(** * Prediction page of the loan-allocation front end

    A shallow embedding of [src/pages/Prediction.js]: the input handler
    [handleInputChange], the fallback scorer [simulatePrediction], the
    API call [callPredictionAPI], the model buttons, [handleSubmit] and
    [resetForm], together with the properties the specification states
    about them.

    JavaScript numbers are IEEE-754 binary64 values.  They are modelled by
    [spec_float] at precision 53 and maximal exponent 1024, with the
    operations of [SpecFloat]; [parseFloat] and [toFixed] follow
    ECMAScript.  Strings are sequences of 8-bit characters. *)

From Stdlib Require Import ZArith Ascii String List Bool Lia DecimalString.
From Stdlib Require Import Floats.SpecFloat.
From stdpp Require Import base option list strings gmap.

Set Warnings "-register-all".

Local Open Scope string_scope.
Local Open Scope Z_scope.

(** ** JavaScript numbers *)

Module JsNumber.

Abbreviation float := spec_float.

Definition prec : Z := 53.
Definition emax : Z := 1024.

Definition NaN : float := S754_nan.
Definition pos_zero : float := S754_zero false.

(** The Number value of a mathematical integer. *)
Definition of_Z (z : Z) : float := binary_normalize prec emax z 0 false.

(** The Number value of [(-1)^neg * D * 10^E], rounded to nearest, ties
    to even.  For a negative [E] the quotient is computed with 64 guard
    bits and the position of the remainder is handed to the rounding. *)
Definition of_decimal (neg : bool) (D E : Z) : float :=
  match D with
  | Zpos d =>
      if 0 <=? E then
        binary_round prec emax neg (Z.to_pos (D * 10 ^ E)) 0
      else
        let den := 10 ^ (- E) in
        let s := Zdigits2 den + 64 in
        let '(q, r) := Z.div_eucl (Z.shiftl D s) den in
        binary_round_aux prec emax neg q (- s) (new_location den r)
  | _ => S754_zero neg
  end.

(** Relational operators; every comparison with NaN is false. *)
Definition lt (x y : float) : bool := SFltb x y.
Definition gt (x y : float) : bool := SFltb y x.
Definition le (x y : float) : bool := SFleb x y.
Definition ge (x y : float) : bool := SFleb y x.

Definition add (x y : float) : float := SFadd prec emax x y.
Definition mul (x y : float) : float := SFmul prec emax x y.

Definition is_nan (x : float) : bool :=
  match x with S754_nan => true | _ => false end.

(** [x || 0]: the left operand when it is truthy; NaN, +0 and -0 are
    falsy. *)
Definition or_zero (x : float) : float :=
  match x with
  | S754_nan | S754_zero _ => pos_zero
  | _ => x
  end.

(** The numeric literal [0.7]. *)
Definition lit_0_7 : float := of_decimal false 7 (-1).

End JsNumber.

Import JsNumber.

(** ** JavaScript strings: [parseFloat], [toUpperCase], [toFixed] *)

Module JsString.

Definition code (c : ascii) : Z := Z.of_N (N_of_ascii c).

Definition is_digit (c : ascii) : bool := (48 <=? code c) && (code c <=? 57).

(** TAB, LF, VT, FF, CR and SPACE. *)
Definition is_white_space (c : ascii) : bool :=
  ((9 <=? code c) && (code c <=? 13)) || (code c =? 32).

Fixpoint trim_start (s : string) : string :=
  match s with
  | String c r => if is_white_space c then trim_start r else s
  | EmptyString => s
  end.

(** The longest run of decimal digits at the head of [s]: their value
    folded onto [acc], their number added to [n], and the rest. *)
Fixpoint read_digits (s : string) (acc n : Z) : Z * Z * string :=
  match s with
  | String c r =>
      if is_digit c then read_digits r (10 * acc + (code c - 48)) (n + 1)
      else (acc, n, s)
  | EmptyString => (acc, n, s)
  end.

Definition read_sign (s : string) : bool * string :=
  match s with
  | String "-" r => (true, r)
  | String "+" r => (false, r)
  | _ => (false, s)
  end.

(** ExponentPart: [e] or [E], an optional sign and at least one digit.
    When it is absent or incomplete the exponent is 0. *)
Definition read_exponent (s : string) : Z :=
  match s with
  | String c r =>
      if (code c =? 101) || (code c =? 69) then
        let '(neg, r1) := read_sign r in
        let '(v, n, _) := read_digits r1 0 0 in
        if n =? 0 then 0 else if neg then - v else v
      else 0
  | EmptyString => 0
  end.

(** [parseFloat]: leading white space is dropped, then the longest
    prefix that is a StrDecimalLiteral is converted; NaN when there is
    none. *)
Definition parseFloat (input : string) : float :=
  let '(neg, s) := read_sign (trim_start input) in
  if String.prefix "Infinity" s then S754_infinity neg
  else
    let '(ip, ni, r1) := read_digits s 0 0 in
    match r1 with
    | String "." r2 =>
        let '(m, nf, r3) := read_digits r2 ip 0 in
        if (ni =? 0) && (nf =? 0) then NaN
        else of_decimal neg m (read_exponent r3 - nf)
    | _ =>
        if ni =? 0 then NaN else of_decimal neg ip (read_exponent r1)
    end.

Definition upper_char (c : ascii) : ascii :=
  if (97 <=? code c) && (code c <=? 122)
  then ascii_of_N (Z.to_N (code c - 32)) else c.

Fixpoint toUpperCase (s : string) : string :=
  match s with
  | String c r => String (upper_char c) (toUpperCase r)
  | EmptyString => EmptyString
  end.

(** Decimal digits of a non-negative integer. *)
Definition digits (n : Z) : string :=
  NilZero.string_of_uint (N.to_uint (Z.to_N n)).

Fixpoint zeros (k : nat) : string :=
  match k with O => "" | S k' => String "0" (zeros k') end.

(** Steps 11-12 of [Number.prototype.toFixed]: the digits of [n] with
    the decimal point [f] places from the right. *)
Definition place_point (f : nat) (n : Z) : string :=
  let m := digits n in
  let m := if (String.length m <=? f)%nat
           then zeros (f + 1 - String.length m) ++ m else m in
  let k := String.length m in
  match f with
  | O => m
  | _ => substring 0 (k - f) m ++ "." ++ substring (k - f) f m
  end.

(** [Number::toString] of an integer-valued Number [M >= 10^21]: the
    shortest digit string [s] (of [k] digits) and exponent [n] with
    [s * 10^(n-k)] rounding to [M], the closest one when several have
    that length. *)
Definition shortest_candidates (M k : Z) : list (Z * Z) :=
  let P := Z.of_nat (String.length (digits M)) in
  let valid '(s, n) :=
    (10 ^ (k - 1) <=? s) && (s <? 10 ^ k) &&
    match SFcompare (of_Z (s * 10 ^ (n - k))) (of_Z M) with
    | Some Eq => true | _ => false end in
  filter (fun c => Is_true (valid c))
    (flat_map (fun n => let s0 := M / 10 ^ (n - k) in [(s0, n); (s0 + 1, n)])
              [P; P + 1]).

Definition closer (M k : Z) (a b : Z * Z) : Z * Z :=
  let dist '(s, n) := Z.abs (s * 10 ^ (n - k) - M) in
  if dist a <? dist b then a
  else if dist b <? dist a then b
  else if Z.even (fst a) then a else b.

Fixpoint shortest_from (fuel : nat) (M k : Z) : Z * Z * Z :=
  match fuel with
  | O => (M, Z.of_nat (String.length (digits M)), k)
  | S fuel' =>
      match shortest_candidates M k with
      | c :: cs => let '(s, n) := fold_left (closer M k) cs c in (s, n, k)
      | [] => shortest_from fuel' M (k + 1)
      end
  end.

Definition toString_large (M : Z) : string :=
  let '(s, n, k) := shortest_from 17 M 1 in
  let d := digits s in
  substring 0 1 d
    ++ (if 1 <? k then "." ++ substring 1 (String.length d - 1) d else "")
    ++ "e+" ++ digits (n - 1).

(** [x.toFixed(f)] for [0 <= f <= 100]. *)
Definition toFixed (f : nat) (x : float) : string :=
  match x with
  | S754_nan => "NaN"
  | S754_infinity s => if s then "-Infinity" else "Infinity"
  | S754_zero _ => place_point f 0
  | S754_finite s m e =>
      let sign := if s then "-" else "" in
      let scale := 10 ^ Z.of_nat f in
      if (0 <=? e) && (10 ^ 21 <=? Zpos m * 2 ^ e) then
        sign ++ toString_large (Zpos m * 2 ^ e)
      else if 0 <=? e then sign ++ place_point f (Zpos m * 2 ^ e * scale)
      else
        let den := 2 ^ (- e) in
        sign ++ place_point f ((2 * (Zpos m * scale) + den) / (2 * den))
  end.

End JsString.

Import JsString.

(** ** Values *)

(** What a property of [formData] can hold: the handler stores the
    [value] string of the changed element, or [calculatedValue], which is
    a string or was never assigned. *)
Inductive field_value :=
  | Undefined
  | Str (s : string).

(** Results and JSON payloads. An object is the list of its own
    properties in insertion order. *)
Inductive jsval :=
  | JUndefined
  | JNull
  | JBool (b : bool)
  | JNum (x : float)
  | JStr (s : string)
  | JArr (items : list jsval)
  | JObj (props : list (string * jsval)).

(** [formData[k]]: a missing property reads as [undefined]. *)
Definition prop (o : gmap string field_value) (k : string) : field_value :=
  default Undefined (o !! k).

Definition ToString (v : field_value) : string :=
  match v with
  | Undefined => "undefined"
  | Str s => s
  end.

(** [v === s] for a string literal [s]. *)
Definition strict_eq (v : field_value) (s : string) : bool :=
  match v with
  | Str t => String.eqb t s
  | Undefined => false
  end.

Definition includes (l : list string) (v : string) : bool :=
  existsb (String.eqb v) l.

Definition own_keys (v : jsval) : list string :=
  match v with
  | JObj props => map fst props
  | _ => []
  end.

(** [v.k] on a value that is neither [null] nor [undefined]. *)
Definition get (v : jsval) (k : string) : jsval :=
  match v with
  | JObj props =>
      match find (fun p => String.eqb (fst p) k) props with
      | Some p => snd p
      | None => JUndefined
      end
  | _ => JUndefined
  end.

(** ** The form and its input handler *)

Definition initialFormData : gmap string field_value :=
  <["creditShort" := Str ""]> (
  <["creditLong" := Str ""]> (
  <["timeLimitation" := Str ""]> (
  <["cph" := Str ""]> (
  <["ctl" := Str ""]> (
  <["aph" := Str ""]> (
  <["atl" := Str ""]> (
  <["quarterFluctuation" := Str ""]> (
  <["resultantFluctuation" := Str ""]> ∅)))))))).

(** What one call of [handleInputChange] does: it ends in
    [setFormData(updatedFormData)], or returns early, after an [alert]
    for the range-checked fields. *)
Inductive handler_result :=
  | SetFormData (updatedFormData : gmap string field_value)
  | Return (alert : option string).

(** The [if / else if / else if] chain that assigns [calculatedValue]. *)
Definition calculatedValue (fluctuation : float) : field_value :=
  if lt fluctuation (of_Z 0) then Str "-1"
  else if ge fluctuation (of_Z 0) && le fluctuation (of_Z 3) then Str "0"
  else if gt fluctuation (of_Z 3) then Str "1"
  else Undefined.

Definition handleInputChange (formData : gmap string field_value)
    (name value : string) : handler_result :=
  let updatedFormData := formData in
  if String.eqb name "cph" || String.eqb name "ctl" then
    if negb (String.eqb value "") && negb (includes ["1"; "0"; "-1"] value)
    then Return None
    else SetFormData (<[name := Str value]> updatedFormData)
  else if String.eqb name "aph" || String.eqb name "atl" then
    if negb (String.eqb value "")
       && (gt (parseFloat value) (of_Z 1) || lt (parseFloat value) (of_Z (-10)))
    then Return (Some ("Please enter a value between -10 and 1.0 for "
                       ++ toUpperCase name))
    else SetFormData (<[name := Str value]> updatedFormData)
  else if String.eqb name "creditShort" then
    if negb (String.eqb value "") && negb (includes ["1"; "0"; "-1"] value)
    then Return None
    else SetFormData (<[name := Str value]> updatedFormData)
  else if String.eqb name "quarterFluctuation" then
    if negb (String.eqb value "")
       && (gt (parseFloat value) (of_Z 8) || lt (parseFloat value) (of_Z (-8)))
    then Return (Some
      "Please enter a value between -8 and 8 for Quarterly Fluctuation")
    else
      let updatedFormData :=
        if negb (String.eqb value "") then
          let fluctuation := parseFloat value in
          <["resultantFluctuation" := calculatedValue fluctuation]> (
          <["creditLong" := calculatedValue fluctuation]> updatedFormData)
        else
          <["resultantFluctuation" := Str ""]> (
          <["creditLong" := Str ""]> updatedFormData) in
      SetFormData (<[name := Str value]> updatedFormData)
  else SetFormData (<[name := Str value]> updatedFormData).

(** The form state after the call: React keeps the previous state when
    [setFormData] was not reached. *)
Definition after_change (formData : gmap string field_value)
    (name value : string) : gmap string field_value :=
  match handleInputChange formData name value with
  | SetFormData updatedFormData => updatedFormData
  | Return _ => formData
  end.

(** ** The fallback scorer and the API call *)

(** [score] after the four conditional increments. The sums are integers
    below 2^53, on which Number addition is exact. *)
Definition score (formData : gmap string field_value) : Z :=
  let creditShort := or_zero (parseFloat (ToString (prop formData "creditShort"))) in
  let creditLong := or_zero (parseFloat (ToString (prop formData "creditLong"))) in
  let score := 0 in
  let score := if gt creditShort (of_Z 650) then score + 30 else score in
  let score := if gt creditLong (of_Z 650) then score + 30 else score in
  let score := if strict_eq (prop formData "paymentHistory") "excellent"
               then score + 25 else score in
  let score := if gt (parseFloat (ToString (prop formData "cph"))) lit_0_7
               then score + 15 else score in
  score.

(** [random] is the value the one call of [Math.random()] returns. *)
Definition simulatePrediction (formData : gmap string field_value)
    (random : float) : jsval :=
  let creditShort := or_zero (parseFloat (ToString (prop formData "creditShort"))) in
  let '(result, confidence, loanRange) :=
    if 80 <=? score formData then
      ("Very_Good", add (of_Z 92) (mul random (of_Z 6)), "$50,000 - $200,000")
    else if 50 <=? score formData then
      ("Normal", add (of_Z 75) (mul random (of_Z 15)), "$10,000 - $50,000")
    else
      ("Very_Bad", add (of_Z 60) (mul random (of_Z 20)), "Not eligible") in
  JObj [
    ("prediction", JStr result);
    ("confidence", JStr (toFixed 1 confidence));
    ("loanRange", JStr loanRange);
    ("factors", JObj [
      ("creditScore",
        JStr (if gt creditShort (of_Z 650) then "Positive" else "Needs Improvement"));
      ("paymentHistory",
        JStr (if strict_eq (prop formData "paymentHistory") "excellent"
              then "Excellent" else "Needs Improvement"));
      ("debtRatio",
        JStr (if gt (parseFloat (ToString (prop formData "cph"))) lit_0_7
              then "Good" else "High Risk"))])].

(** How the [fetch] of [/api/predict] ends: it rejects, or it resolves to
    a response with an [ok] flag whose body parses to [Some data] or fails
    to parse. *)
Inductive fetch_outcome :=
  | FetchRejected
  | Response (ok : bool) (json : option jsval).

(** The object built from a parsed response body. *)
Definition model_result (data : jsval) : jsval :=
  JObj [
    ("prediction", get data "prediction");
    ("confidence", get data "confidence");
    ("loanRange", get data "loan_range");
    ("factors", get data "factors");
    ("modelPredictions", get data "model_predictions");
    ("processingTime", get data "processing_time_ms")].

(** Everything thrown inside the [try] (a rejected fetch, a status that is
    not ok, a body that is not JSON, a property read on [null]) lands in
    the [catch], which returns [simulatePrediction()]. *)
Definition callPredictionAPI (formData : gmap string field_value)
    (outcome : fetch_outcome) (random : float) : jsval :=
  match outcome with
  | Response true (Some data) =>
      match data with
      | JNull | JUndefined => simulatePrediction formData random
      | _ => model_result data
      end
  | _ => simulatePrediction formData random
  end.

(** ** The page: state, events and handlers *)

Module Page.

(** The entries of the array the model buttons are mapped from. *)
Record model_card := {
  key : string;
  name : string;
  accuracy : string;
  service : string
}.

Definition model_cards : list model_card := [
  {| key := "xgboost"; name := "XGBoost"; accuracy := "94.5%"; service := "loan" |};
  {| key := "random_forest"; name := "Random Forest"; accuracy := "92.1%";
     service := "loan" |};
  {| key := "logistic"; name := "Logistic Regression"; accuracy := "87.3%";
     service := "classification" |};
  {| key := "knn"; name := "KNN"; accuracy := "85.7%"; service := "classification" |}
].

(** The elements of the form, in document order, with the attributes
    that decide which events reach [handleInputChange]. *)
Record form_element := {
  el_name : string;
  el_onChange : bool;
  el_readOnly : bool
}.

Definition form_elements : list form_element := [
  {| el_name := "creditShort"; el_onChange := true; el_readOnly := false |};
  {| el_name := "creditLong"; el_onChange := false; el_readOnly := true |};
  {| el_name := "cph"; el_onChange := true; el_readOnly := false |};
  {| el_name := "ctl"; el_onChange := true; el_readOnly := false |};
  {| el_name := "aph"; el_onChange := true; el_readOnly := false |};
  {| el_name := "atl"; el_onChange := true; el_readOnly := false |};
  {| el_name := "quarterFluctuation"; el_onChange := true; el_readOnly := false |};
  {| el_name := "resultantFluctuation"; el_onChange := false; el_readOnly := true |}
].

(** Some element called [n] passes its change events to the handler. *)
Definition has_onChange (n : string) : bool :=
  existsb (fun el => String.eqb (el_name el) n && el_onChange el) form_elements.

(** The component state the handlers read and write. [selectedModels]
    has no call of its setter and is a constant; [loading],
    [mousePosition] and [isFormFocused] only drive the presentation. *)
Record state := {
  formData : gmap string field_value;
  prediction : option jsval;
  showChart : bool;
  selectedService : string;
  specificModel : option string
}.

Definition selectedModels (srv : string) : option (list string) :=
  if String.eqb srv "loan" then Some ["xgboost"; "random_forest"]
  else if String.eqb srv "classification" then Some ["knn"; "logistic"]
  else None.

Definition initial : state := {|
  formData := initialFormData;
  prediction := None;
  showChart := false;
  selectedService := "loan";
  specificModel := None
|}.

(** [null] and the empty string are falsy. *)
Definition truthy (m : option string) : bool :=
  match m with
  | Some k => negb (String.eqb k "")
  | None => false
  end.

(** The JSON body of the POST: the form properties, then [serviceType]
    and [selectedModels]. A property whose value is [undefined] is left
    out by [JSON.stringify], hence the option. *)
Record request := {
  body_form : gmap string field_value;
  serviceType : string;
  body_selectedModels : option (list string)
}.

Definition request_body (s : state) : request := {|
  body_form := formData s;
  serviceType := selectedService s;
  body_selectedModels :=
    match specificModel s with
    | Some k => if truthy (Some k) then Some [k] else selectedModels (selectedService s)
    | None => selectedModels (selectedService s)
    end
|}.

Inductive effect :=
  | Alert (msg : string)
  | Fetch (body : request).

(** What can happen to the page. A change event carries the name of
    its element and any string as value; [Submit] carries how the fetch
    ends and what [Math.random()] returns should the fallback run. *)
Inductive event :=
  | Change (name value : string)
  | ClickModel (i : nat)
  | Submit (outcome : fetch_outcome) (random : float)
  | ClickReset.

Definition onChange (s : state) (n value : string) : state * list effect :=
  if has_onChange n then
    match handleInputChange (formData s) n value with
    | SetFormData updatedFormData =>
        ({| formData := updatedFormData;
            prediction := prediction s;
            showChart := showChart s;
            selectedService := selectedService s;
            specificModel := specificModel s |}, [])
    | Return (Some msg) => (s, [Alert msg])
    | Return None => (s, [])
    end
  else (s, []).

Definition onClickModel (s : state) (i : nat) : state * list effect :=
  match model_cards !! i with
  | Some model =>
      ({| formData := formData s;
          prediction := None;
          showChart := false;
          selectedService := service model;
          specificModel := Some (key model) |}, [])
  | None => (s, [])
  end.

(** The request is sent and answered within the one event. *)
Definition handleSubmit (s : state) (outcome : fetch_outcome) (random : float)
    : state * list effect :=
  if negb (truthy (specificModel s)) then
    (s, [Alert ("Please select one of the four AI models "
                ++ "(XGBoost, Random Forest, Logistic Regression, or KNN) "
                ++ "for analysis.")])
  else
    ({| formData := formData s;
        prediction := Some (callPredictionAPI (formData s) outcome random);
        showChart := true;
        selectedService := selectedService s;
        specificModel := specificModel s |},
     [Fetch (request_body s)]).

Definition resetForm (s : state) : state * list effect :=
  ({| formData := initialFormData;
      prediction := None;
      showChart := false;
      selectedService := selectedService s;
      specificModel := None |}, []).

Definition step (s : state) (e : event) : state * list effect :=
  match e with
  | Change n value => onChange s n value
  | ClickModel i => onClickModel s i
  | Submit outcome random => handleSubmit s outcome random
  | ClickReset => resetForm s
  end.

Fixpoint run (s : state) (es : list event) : state * list effect :=
  match es with
  | [] => (s, [])
  | e :: es' =>
      let '(s1, out1) := step s e in
      let '(s2, out2) := run s1 es' in
      (s2, (out1 ++ out2)%list)
  end.

End Page.

(** ** The specification's side *)

Inductive label := Very_Good | Normal | Very_Bad.

Definition label_name (l : label) : string :=
  match l with
  | Very_Good => "Very_Good"
  | Normal => "Normal"
  | Very_Bad => "Very_Bad"
  end.

(** The mapper of section 4.5 of the specification, in its words. *)
Definition mapRange_spec (l : label) : string :=
  match l with
  | Very_Good => "$50,000 - $200,000"
  | Normal => "$10,000 - $50,000"
  | Very_Bad => "Not eligible"
  end.

(** The model registry of section 3: identifier and ServiceType. *)
Definition registry_spec : list (string * string) := [
  ("xgboost", "loan"); ("random_forest", "loan");
  ("logistic", "classification"); ("knn", "classification")
].

(** ** Predicates and sample inputs used by the properties *)

(** The literals the discrete fields admit. *)
Definition discrete_values : list string := ["1"; "0"; "-1"].

Definition discrete (v : field_value) : Prop :=
  v = Str "1" ∨ v = Str "0" ∨ v = Str "-1".

Definition within (lo hi : Z) (v : field_value) : Prop :=
  ∃ s, v = Str s
       ∧ le (of_Z lo) (parseFloat s) = true ∧ le (parseFloat s) (of_Z hi) = true.

(** The input domains of the form: the discrete fields hold one of the
    three literals, the continuous ones a number of their interval, the
    derived fields what the handler computes from [quarterFluctuation],
    and there is no [paymentHistory] property. *)
Record validated (fd : gmap string field_value) : Prop := {
  v_creditShort : discrete (prop fd "creditShort");
  v_cph : discrete (prop fd "cph");
  v_ctl : discrete (prop fd "ctl");
  v_aph : within (-10) 1 (prop fd "aph");
  v_atl : within (-10) 1 (prop fd "atl");
  v_quarterFluctuation : within (-8) 8 (prop fd "quarterFluctuation");
  v_creditLong :
    prop fd "creditLong"
      = calculatedValue (parseFloat (ToString (prop fd "quarterFluctuation")));
  v_resultantFluctuation :
    prop fd "resultantFluctuation"
      = calculatedValue (parseFloat (ToString (prop fd "quarterFluctuation")));
  v_paymentHistory : fd !! "paymentHistory" = None
}.

(** A form filled in through the handler. *)
Definition sample_form : gmap string field_value :=
  foldl (fun fd '(n, value) => after_change fd n value) initialFormData
    [("creditShort", "1"); ("cph", "1"); ("ctl", "0"); ("aph", "0.5");
     ("atl", "-2.25"); ("quarterFluctuation", "5")].

(** Form states that reach the two upper branches of the fallback. No
    sequence of events of the page produces them: the scorer is applied to
    them as a function. *)
Definition form_scoring_85 : gmap string field_value :=
  <["paymentHistory" := Str "excellent"]> (
  <["creditLong" := Str "700"]> (<["creditShort" := Str "700"]> ∅)).

Definition form_scoring_60 : gmap string field_value :=
  <["creditLong" := Str "700"]> (<["creditShort" := Str "700"]> ∅).

(** A result built from a response body on which the property reads
    succeed. *)
Definition model_backed (r : jsval) : Prop :=
  ∃ data, data ≠ JNull ∧ data ≠ JUndefined ∧ r = model_result data.

(** [r] carries a tag when some property of [r] reads as a value that no
    model-backed result has at that property. *)
Definition carries_tag (r : jsval) : Prop :=
  ∃ k, ∀ r', model_backed r' → get r' k ≠ get r k.

(** A response body that repeats the four properties of [r]. *)
Definition echo (r : jsval) : jsval :=
  JObj [
    ("prediction", get r "prediction");
    ("confidence", get r "confidence");
    ("loan_range", get r "loanRange");
    ("factors", get r "factors")].

(** The two derived fields agree, and are empty when
    [quarterFluctuation] is. *)
Definition derived_consistent (fd : gmap string field_value) : Prop :=
  prop fd "creditLong" = prop fd "resultantFluctuation"
  ∧ (prop fd "quarterFluctuation" = Str "" →
     prop fd "creditLong" = Str "" ∧ prop fd "resultantFluctuation" = Str "").

(** The selected service is the service of the selected model. *)
Definition service_consistent (s : Page.state) : Prop :=
  (Page.selectedService s = "loan" ∨ Page.selectedService s = "classification")
  ∧ ∀ k, Page.specificModel s = Some k →
         In (k, Page.selectedService s) registry_spec.

(** ** More of the number library: [-], [/], [===], [Math.round],
    [Number::toString] *)

Module JsMath.

Definition sub (x y : float) : float := SFsub prec emax x y.
Definition div (x y : float) : float := SFdiv prec emax x y.

(** [x === y] on numbers: false for NaN, true for [+0] and [-0]. *)
Definition eq (x y : float) : bool := SFeqb x y.

(** [Math.round]: the closest integer, the one towards +infinity of two
    equally close ones; a negative argument that rounds to zero gives
    [-0]. *)
Definition round (x : float) : float :=
  match x with
  | S754_finite s m e =>
      if 0 <=? e then x
      else
        let v := if s then Zneg m else Zpos m in
        let den := 2 ^ (- e) in
        let n := (2 * v + den) / (2 * den) in
        if n =? 0 then S754_zero s else of_Z n
  | _ => x
  end.

(** The candidates [(s, n)] with [k] digits for the positive number
    [m * 2^e]: [10^(k-1) <= s < 10^k] and [s * 10^(n-k)] has that Number
    value. [est] is a lower estimate of the decimal exponent. *)
Definition digit_candidates (m : positive) (e est k : Z) : list (Z * Z) :=
  let valid '(s, n) :=
    (10 ^ (k - 1) <=? s) && (s <? 10 ^ k)
    && match of_decimal false s (n - k) with
       | S754_finite false m' e' => Pos.eqb m' m && (e' =? e)
       | _ => false
       end in
  List.filter valid
    (flat_map
       (fun n =>
          let num := Zpos m * 2 ^ Z.max 0 e * 10 ^ Z.max 0 (k - n) in
          let den := 2 ^ Z.max 0 (- e) * 10 ^ Z.max 0 (n - k) in
          [(num / den, n); (num / den + 1, n)])
       [est; est + 1; est + 2]).

(** Of two candidates the one whose value is closer to [m * 2^e], the
    even one when they are equally close. *)
Definition nearer (m : positive) (e est k : Z) (a b : Z * Z) : Z * Z :=
  let K := Z.max 0 (k - est) in
  let E := Z.max 0 (- e) in
  let dist '(s, n) :=
    Z.abs (s * 10 ^ (n - k + K) * 2 ^ E - Zpos m * 2 ^ (e + E) * 10 ^ K) in
  if dist a <? dist b then a
  else if dist b <? dist a then b
  else if Z.even (fst a) then a else b.

Fixpoint shortest (fuel : nat) (m : positive) (e est k : Z) : Z * Z * Z :=
  match fuel with
  | O => (0, 0, 0)
  | S fuel' =>
      match digit_candidates m e est k with
      | c :: cs => let '(s, n) := fold_left (nearer m e est k) cs c in (s, n, k)
      | [] => shortest fuel' m e est (k + 1)
      end
  end.

(** [Number::toString] in radix 10. *)
Definition toString (x : float) : string :=
  match x with
  | S754_nan => "NaN"
  | S754_zero _ => "0"
  | S754_infinity s => if s then "-Infinity" else "Infinity"
  | S754_finite sg m e =>
      let est := (Zpos (digits2_pos m) + e - 1) * 30103 / 100000 in
      let '(s, n, k) := shortest 17 m e est 1 in
      let d := digits s in
      let body :=
        if (k <=? n) && (n <=? 21) then d ++ zeros (Z.to_nat (n - k))
        else if (0 <? n) && (n <=? 21) then
          substring 0 (Z.to_nat n) d ++ "." ++ substring (Z.to_nat n) (Z.to_nat (k - n)) d
        else if (-6 <? n) && (n <=? 0) then "0." ++ zeros (Z.to_nat (- n)) ++ d
        else
          let ex := (if n - 1 <? 0 then "-" else "+") ++ digits (Z.abs (n - 1)) in
          if k =? 1 then d ++ "e" ++ ex
          else substring 0 1 d ++ "." ++ substring 1 (Z.to_nat (k - 1)) d ++ "e" ++ ex in
      (if sg then "-" else "") ++ body
  end.

End JsMath.

(** [ToString] of a value: [Array.prototype.join] writes [null] and
    [undefined] elements as the empty string. *)
Fixpoint ToString_jsval (v : jsval) : string :=
  match v with
  | JUndefined => "undefined"
  | JNull => "null"
  | JBool b => if b then "true" else "false"
  | JNum x => JsMath.toString x
  | JStr s => s
  | JArr items =>
      String.concat ","
        (map (fun i => match i with
                       | JUndefined | JNull => ""
                       | _ => ToString_jsval i
                       end) items)
  | JObj _ => "[object Object]"
  end.

(** [ToBoolean]: [undefined], [null], [false], [0], [-0], NaN and the
    empty string are falsy. *)
Definition ToBoolean (v : jsval) : bool :=
  match v with
  | JUndefined | JNull => false
  | JBool b => b
  | JNum (S754_zero _) | JNum S754_nan => false
  | JNum _ => true
  | JStr s => negb (String.eqb s "")
  | JArr _ | JObj _ => true
  end.

(** [v === s] for a string literal [s]. *)
Definition is_string (v : jsval) (s : string) : bool :=
  match v with
  | JStr t => String.eqb t s
  | _ => false
  end.

(** [v.k] where the read throws on [null] and [undefined]. *)
Definition read (v : jsval) (k : string) : option jsval :=
  match v with
  | JUndefined | JNull => None
  | _ => Some (get v k)
  end.

(** ** The other helpers of the page *)

Definition userRequiredFields : list string :=
  ["creditShort"; "cph"; "ctl"; "aph"; "atl"; "quarterFluctuation"].

(** [formData[field] !== '']: a property that is missing or [undefined]
    counts as filled. *)
Definition filledFields (formData : gmap string field_value) : nat :=
  length (List.filter (fun field => negb (strict_eq (prop formData field) ""))
            userRequiredFields).

Definition getFormCompletionPercentage (formData : gmap string field_value) : float :=
  JsMath.round
    (mul (JsMath.div (of_Z (Z.of_nat (filledFields formData)))
                     (of_Z (Z.of_nat (length userRequiredFields))))
         (of_Z 100)).

(** The text under a field. [!value] holds for [undefined] and for the
    empty string. *)
Definition getStatusIndicator (fieldName : string) (value : field_value) : string :=
  if strict_eq value "" || negb (match value with Str _ => true | Undefined => false end)
  then ""
  else
    let numValue := parseFloat (ToString value) in
    if String.eqb fieldName "cph" || String.eqb fieldName "ctl"
       || String.eqb fieldName "creditShort" then
      if strict_eq value "1" then "🟢 Good"
      else if strict_eq value "0" then "🟡 Normal"
      else if strict_eq value "-1" then "🔴 Poor"
      else ""
    else if String.eqb fieldName "aph" || String.eqb fieldName "atl" then
      if JsMath.eq numValue (of_Z 1) then "🟢 Good"
      else if ge numValue (of_Z 0) && lt numValue (of_Z 1) then "🟡 Normal"
      else if lt numValue (of_Z 0) then "🔴 Poor"
      else ""
    else if String.eqb fieldName "creditLong" then
      if strict_eq value "1" then "🟢 Good (Fluctuation > 3)"
      else if strict_eq value "0" then "🟡 Normal (Fluctuation 0-3)"
      else if strict_eq value "-1" then "🔴 Poor (Fluctuation < 0)"
      else ""
    else if String.eqb fieldName "resultantFluctuation" then
      if strict_eq value "1" then "🟢 Good (Quarterly > 3)"
      else if strict_eq value "0" then "🟡 Normal (Quarterly 0-3)"
      else if strict_eq value "-1" then "🔴 Poor (Quarterly < 0)"
      else ""
    else if String.eqb fieldName "quarterFluctuation" then
      if gt numValue (of_Z 3) then "🟢 Good (Credit-Long = 1)"
      else if ge numValue (of_Z 0) && le numValue (of_Z 3)
      then "🟡 Normal (Credit-Long = 0)"
      else if lt numValue (of_Z 0) then "🔴 Poor (Credit-Long = -1)"
      else ""
    else "".

(** ** What the result column shows *)

Module ResultView.

(** The headline of the result card. *)
Definition headline (selectedService : string) (prediction : jsval) : string :=
  if String.eqb selectedService "loan" then
    if is_string (get prediction "prediction") "Very_Good" then "Loan Approved!"
    else if is_string (get prediction "prediction") "Normal" then "Conditional Approval"
    else "Loan Declined"
  else
    if is_string (get prediction "prediction") "Very_Good" then "Premium Customer"
    else if is_string (get prediction "prediction") "Normal" then "Standard Customer"
    else "High-Risk Customer".

(** [prediction.processingTime || '150']. *)
Definition processingTime (prediction : jsval) : jsval :=
  if ToBoolean (get prediction "processingTime")
  then get prediction "processingTime" else JStr "150".

(** The panel under the model information: the three key factors when
    the label is not ['Very_Bad'], the improvement tips when it is. *)
Inductive panel :=
  | KeyFactors (creditScore creditPaymentHistory avgPaymentHistory : jsval)
  | ImprovementTips.

(** [None] when reading a factor throws, which it does on a [factors]
    that is [null] or [undefined]. *)
Definition result_panel (prediction : jsval) : option panel :=
  if negb (is_string (get prediction "prediction") "Very_Bad") then
    match read (get prediction "factors") "creditScore",
          read (get prediction "factors") "creditPaymentHistory",
          read (get prediction "factors") "avgPaymentHistory" with
    | Some a, Some b, Some c => Some (KeyFactors a b c)
    | _, _, _ => None
    end
  else Some ImprovementTips.

(** The accuracy badge and the title, chosen by [specificModel]. *)
Definition accuracy_badge (specificModel : option string) : string :=
  match specificModel with
  | Some k =>
      if String.eqb k "xgboost" then "94.5%"
      else if String.eqb k "random_forest" then "92.1%"
      else if String.eqb k "logistic" then "87.3%"
      else if String.eqb k "knn" then "85.7%"
      else "90%"
  | None => "90%"
  end.

Definition title (specificModel : option string) : string :=
  match specificModel with
  | Some k =>
      if String.eqb k "xgboost" then "XGBoost Analysis Results"
      else if String.eqb k "random_forest" then "Random Forest Analysis Results"
      else if String.eqb k "logistic" then "Logistic Regression Analysis Results"
      else if String.eqb k "knn" then "KNN Analysis Results"
      else "AI Analysis Results"
  | None => "AI Analysis Results"
  end.

End ResultView.

(** ** [PredictionChart] *)

Module PredictionChart.

Definition impact (prediction : jsval) (very_good normal other : Z) : Z :=
  if is_string (get prediction "prediction") "Very_Good" then very_good
  else if is_string (get prediction "prediction") "Normal" then normal
  else other.

Definition featureData (prediction : jsval) : list (string * Z) := [
  ("Credit Score", impact prediction 85 65 35);
  ("Payment History", impact prediction 90 70 40);
  ("Debt Ratio", impact prediction 80 60 30);
  ("Credit Length", impact prediction 75 55 25);
  ("Fluctuations", impact prediction 70 50 20)
].

Definition confidenceData (prediction : jsval) : list (string * float) := [
  ("Confidence", parseFloat (ToString_jsval (get prediction "confidence")));
  ("Uncertainty",
   JsMath.sub (of_Z 100) (parseFloat (ToString_jsval (get prediction "confidence"))))
].

(** The uncertainty in the legend under the pie:
    [(100 - parseFloat(prediction.confidence)).toFixed(1)]. *)
Definition uncertainty_legend (prediction : jsval) : string :=
  toFixed 1
    (JsMath.sub (of_Z 100) (parseFloat (ToString_jsval (get prediction "confidence")))).

Definition bar_fill (prediction : jsval) : string :=
  if is_string (get prediction "prediction") "Very_Good" then "#22c55e"
  else if is_string (get prediction "prediction") "Normal" then "#f59e0b"
  else "#ef4444".

End PredictionChart.

(** ** [handleSubmit] with its [await]

    The page of [Page] answers a submit within the event. Here the
    submit sends the request and sets [loading], and the answer arrives
    as an event of its own, after any number of other events; the
    closure that awaits it holds the form state of the submit. The submit
    button is disabled while [loading]. *)

Module AsyncPage.

Record state := {
  page : Page.state;
  loading : bool;
  awaiting : option (gmap string field_value)
}.

Definition initial : state :=
  {| page := Page.initial; loading := false; awaiting := None |}.

Inductive event :=
  | Change (name value : string)
  | ClickModel (i : nat)
  | SubmitForm
  | Settle (outcome : fetch_outcome) (random : float)
  | ClickReset.

Definition lift (s : state) (r : Page.state * list Page.effect)
    : state * list Page.effect :=
  ({| page := fst r; loading := loading s; awaiting := awaiting s |}, snd r).

Definition submit (s : state) : state * list Page.effect :=
  if loading s then (s, [])
  else if negb (Page.truthy (Page.specificModel (page s))) then
    (s, [Page.Alert ("Please select one of the four AI models "
                     ++ "(XGBoost, Random Forest, Logistic Regression, or KNN) "
                     ++ "for analysis.")])
  else
    ({| page := page s; loading := true;
        awaiting := Some (Page.formData (page s)) |},
     [Page.Fetch (Page.request_body (page s))]).

Definition settle (s : state) (outcome : fetch_outcome) (random : float)
    : state * list Page.effect :=
  match awaiting s with
  | Some formData =>
      ({| page :=
            {| Page.formData := Page.formData (page s);
               Page.prediction := Some (callPredictionAPI formData outcome random);
               Page.showChart := true;
               Page.selectedService := Page.selectedService (page s);
               Page.specificModel := Page.specificModel (page s) |};
          loading := false;
          awaiting := None |}, [])
  | None => (s, [])
  end.

Definition step (s : state) (e : event) : state * list Page.effect :=
  match e with
  | Change n value => lift s (Page.onChange (page s) n value)
  | ClickModel i => lift s (Page.onClickModel (page s) i)
  | SubmitForm => submit s
  | Settle outcome random => settle s outcome random
  | ClickReset => lift s (Page.resetForm (page s))
  end.

Fixpoint run (s : state) (es : list event) : state * list Page.effect :=
  match es with
  | [] => (s, [])
  | e :: es' =>
      let '(s1, out1) := step s e in
      let '(s2, out2) := run s1 es' in
      (s2, (out1 ++ out2)%list)
  end.

End AsyncPage.

(** ** Predicates of the further properties *)

(** A field that is empty or holds a value its check lets through. *)
Definition empty_or_discrete (v : field_value) : Prop :=
  v = Str "" ∨ v = Str "1" ∨ v = Str "0" ∨ v = Str "-1".

Definition empty_or_not_outside (lo hi : Z) (v : field_value) : Prop :=
  ∃ s, v = Str s
       ∧ (s = "" ∨ (gt (parseFloat s) (of_Z hi) = false
                    ∧ lt (parseFloat s) (of_Z lo) = false)).

(** What the handler derives from the current [quarterFluctuation]. *)
Definition derived_of (quarterFluctuation : field_value) : field_value :=
  match quarterFluctuation with
  | Str "" => Str ""
  | Str value => calculatedValue (parseFloat value)
  | Undefined => Undefined
  end.

(** The form states the page keeps to. *)
Record kept_form (fd : gmap string field_value) : Prop := {
  k_dom : dom fd = dom initialFormData;
  k_timeLimitation : prop fd "timeLimitation" = Str "";
  k_creditShort : empty_or_discrete (prop fd "creditShort");
  k_cph : empty_or_discrete (prop fd "cph");
  k_ctl : empty_or_discrete (prop fd "ctl");
  k_aph : empty_or_not_outside (-10) 1 (prop fd "aph");
  k_atl : empty_or_not_outside (-10) 1 (prop fd "atl");
  k_quarterFluctuation : empty_or_not_outside (-8) 8 (prop fd "quarterFluctuation");
  k_creditLong : prop fd "creditLong" = derived_of (prop fd "quarterFluctuation");
  k_resultantFluctuation :
    prop fd "resultantFluctuation" = derived_of (prop fd "quarterFluctuation")
}.

(** A confidence with one decimal: [n] tenths. *)
Definition tenths (n : Z) : string := digits (n / 10) ++ "." ++ digits (n mod 10).

Definition count_fetch (out : list Page.effect) : nat :=
  length (List.filter (fun x => match x with Page.Fetch _ => true | _ => false end) out).

Definition count_settle (es : list AsyncPage.event) : nat :=
  length (List.filter (fun e => match e with AsyncPage.Settle _ _ => true | _ => false end) es).

(** The form on the page and the form an awaited answer was asked for
    are both kept forms, [loading] says whether an answer is awaited, and
    the chart is switched on exactly when there is a result. *)
Definition async_kept (s : AsyncPage.state) : Prop :=
  kept_form (Page.formData (AsyncPage.page s))
  ∧ (∀ fd, AsyncPage.awaiting s = Some fd → kept_form fd)
  ∧ (AsyncPage.loading s = true ↔ AsyncPage.awaiting s ≠ None).

Definition chart_with_result (s : AsyncPage.state) : Prop :=
  Page.showChart (AsyncPage.page s) = true
  ↔ Page.prediction (AsyncPage.page s) ≠ None.

(** * Properties *)

(** ** Comparison of numbers *)

Section Comparison.

Lemma SFcompare_antisym (x y : float) (c : comparison) :
  SFcompare x y = Some c → SFcompare y x = Some (CompOpp c).
Proof.
  destruct x as [sx|sx| |sx mx ex], y as [sy|sy| |sy my ey]; simpl;
    intros H; try discriminate H;
    try (destruct sx); try (destruct sy);
    injection H as <-; try reflexivity.
  - pose proof (Pos.compare_cont_antisym mx my Eq) as A. simpl in A.
    rewrite (Z.compare_antisym ex ey).
    destruct (ex ?= ey); simpl; try reflexivity.
    now rewrite <- A.
  - pose proof (Pos.compare_cont_antisym mx my Eq) as A. simpl in A.
    rewrite (Z.compare_antisym ex ey).
    destruct (ex ?= ey); simpl; try reflexivity.
    rewrite <- A. now destruct (Pos.compare_cont Eq mx my).
Qed.

Lemma SFcompare_total (x y : float) :
  is_nan x = false → is_nan y = false → ∃ c, SFcompare x y = Some c.
Proof.
  destruct x, y; simpl; intros; try discriminate; eauto.
Qed.

Lemma le_not_gt (x y : float) : le x y = true → gt x y = false.
Proof.
  unfold le, gt, SFleb, SFltb.
  destruct (SFcompare x y) as [c|] eqn:E; [|discriminate].
  rewrite (SFcompare_antisym _ _ _ E). now destruct c.
Qed.

Lemma ge_not_lt (x y : float) : ge x y = true → lt x y = false.
Proof.
  unfold ge, lt, SFleb, SFltb.
  destruct (SFcompare y x) as [c|] eqn:E; [|discriminate].
  rewrite (SFcompare_antisym _ _ _ E). now destruct c.
Qed.

Lemma gt_not_le (x y : float) : gt x y = true → le x y = false.
Proof.
  intros H. destruct (le x y) eqn:E; [|reflexivity].
  apply le_not_gt in E. congruence.
Qed.

Lemma lt_not_ge (x y : float) : lt x y = true → ge x y = false.
Proof.
  intros H. destruct (ge x y) eqn:E; [|reflexivity].
  apply ge_not_lt in E. congruence.
Qed.

Lemma lt_le (x y : float) : lt x y = true → le x y = true.
Proof. unfold lt, le, SFltb, SFleb. now destruct (SFcompare x y) as [[]|]. Qed.

(** For numbers, [<=] is the negation of [>] and [>=] that of [<]. *)
Lemma le_negb_gt (x y : float) :
  is_nan x = false → is_nan y = false → le x y = negb (gt x y).
Proof.
  intros Hx Hy. destruct (SFcompare_total x y Hx Hy) as [c E].
  unfold le, gt, SFleb, SFltb.
  rewrite E, (SFcompare_antisym _ _ _ E). now destruct c.
Qed.

Lemma ge_negb_lt (x y : float) :
  is_nan x = false → is_nan y = false → ge x y = negb (lt x y).
Proof.
  intros Hx Hy. destruct (SFcompare_total x y Hx Hy) as [c E].
  unfold ge, lt, SFleb, SFltb.
  rewrite E, (SFcompare_antisym _ _ _ E). now destruct c.
Qed.

End Comparison.

(** ** The library functions on known values *)

(** [parseFloat] against the binary64 values of the literals: 0.1 is
    0x3FB999999999999A, 1.01 is 0x3FF028F5C28F5C29, 0.7 is
    0x3FE6666666666666; a decimal within half an ulp of 1 parses to 1. *)
Example parseFloat_known :
  parseFloat "0.1" = S754_finite false 7205759403792794 (-56)
  ∧ parseFloat "1.01" = S754_finite false 4548635623644201 (-52)
  ∧ parseFloat "0.7" = lit_0_7
  ∧ lit_0_7 = S754_finite false 6305039478318694 (-53)
  ∧ parseFloat "1.00000000000000000001" = of_Z 1
  ∧ parseFloat "  12px" = of_Z 12
  ∧ parseFloat "5.e3" = of_Z 5000
  ∧ parseFloat "-0" = S754_zero true
  ∧ parseFloat "1e400" = S754_infinity false
  ∧ parseFloat "5e-324" = S754_finite false 1 (-1074).
Proof. vm_compute. repeat split. Qed.

Example parseFloat_not_a_number :
  map parseFloat [""; "abc"; "-"; "."; "e5"; "undefined"]
  = [NaN; NaN; NaN; NaN; NaN; NaN].
Proof. vm_compute. reflexivity. Qed.

Example toFixed_known :
  map (toFixed 1)
    [of_Z 60; parseFloat "70.25"; parseFloat "70.35"; parseFloat "0.05";
     parseFloat "-0.01"; parseFloat "97.95"; parseFloat "1e21";
     parseFloat "123456789012345678901234"; NaN]
  = ["60.0"; "70.3"; "70.3"; "0.1"; "-0.0"; "98.0"; "1e+21";
     "1.2345678901234569e+23"; "NaN"].
Proof. vm_compute. reflexivity. Qed.

(** ** The input handler, case by case *)

Section Handler.

Implicit Types (fd updated : gmap string field_value) (value : string).

(** The three discrete fields share one check. *)
Lemma handle_discrete fd (n : string) value :
  n = "creditShort" ∨ n = "cph" ∨ n = "ctl" →
  handleInputChange fd n value =
    if negb (String.eqb value "") && negb (includes discrete_values value)
    then Return None
    else SetFormData (<[n := Str value]> fd).
Proof. intros [-> | [-> | ->]]; reflexivity. Qed.

Lemma handle_continuous fd (n : string) value :
  n = "aph" ∨ n = "atl" →
  handleInputChange fd n value =
    if negb (String.eqb value "")
       && (gt (parseFloat value) (of_Z 1) || lt (parseFloat value) (of_Z (-10)))
    then Return (Some ("Please enter a value between -10 and 1.0 for "
                       ++ toUpperCase n))
    else SetFormData (<[n := Str value]> fd).
Proof. intros [-> | ->]; reflexivity. Qed.

Lemma handle_quarterFluctuation fd value :
  handleInputChange fd "quarterFluctuation" value =
    if negb (String.eqb value "")
       && (gt (parseFloat value) (of_Z 8) || lt (parseFloat value) (of_Z (-8)))
    then Return (Some
      "Please enter a value between -8 and 8 for Quarterly Fluctuation")
    else
      let d := if negb (String.eqb value "")
               then calculatedValue (parseFloat value) else Str "" in
      SetFormData (<["quarterFluctuation" := Str value]> (
                   <["resultantFluctuation" := d]> (
                   <["creditLong" := d]> fd))).
Proof.
  unfold handleInputChange. simpl.
  destruct (negb (String.eqb value "")); reflexivity.
Qed.

Lemma nonempty_neqb value : value ≠ "" → negb (String.eqb value "") = true.
Proof.
  intros H. destruct (String.eqb_spec value ""); [contradiction | reflexivity].
Qed.

Lemma includes_In (l : list string) value :
  includes l value = true ↔ In value l.
Proof.
  unfold includes. rewrite existsb_exists. split.
  - intros (x & Hx & E). apply String.eqb_eq in E. now subst.
  - intros H. exists value. split; [assumption | apply String.eqb_refl].
Qed.

(** The derived properties after an accepted quarterly fluctuation. *)
Lemma derived_after_quarter fd value (d : field_value) :
  let updated := <["quarterFluctuation" := Str value]> (
                 <["resultantFluctuation" := d]> (
                 <["creditLong" := d]> fd)) in
  prop updated "creditLong" = d ∧ prop updated "resultantFluctuation" = d
  ∧ prop updated "quarterFluctuation" = Str value.
Proof. unfold prop. by simplify_map_eq. Qed.

Lemma calculatedValue_neg (q : float) :
  lt q (of_Z 0) = true → calculatedValue q = Str "-1".
Proof. unfold calculatedValue. now intros ->. Qed.

Lemma calculatedValue_mid (q : float) :
  ge q (of_Z 0) = true → le q (of_Z 3) = true → calculatedValue q = Str "0".
Proof.
  unfold calculatedValue. intros H0 H3.
  now rewrite (ge_not_lt _ _ H0), H0, H3.
Qed.

Lemma lt_zero_not_gt_pos (x : float) (m : positive) (e : Z) :
  lt x (S754_zero false) = true → gt x (S754_finite false m e) = false.
Proof. destruct x as [s|s| |s mx ex]; try destruct s; try discriminate; reflexivity. Qed.

Lemma calculatedValue_pos (q : float) :
  gt q (of_Z 3) = true → calculatedValue q = Str "1".
Proof.
  unfold calculatedValue. intros H3.
  destruct (lt q (of_Z 0)) eqn:H0.
  - apply (lt_zero_not_gt_pos _ 6755399441055744 (-51)) in H0.
    change (S754_finite false 6755399441055744 (-51)) with (of_Z 3) in H0.
    congruence.
  - now rewrite (gt_not_le _ _ H3), andb_false_r, H3.
Qed.

(** A number falls in exactly one of the three branches, so
    [calculatedValue] stays unassigned for NaN only. *)
Lemma calculatedValue_trichotomy (q : float) :
  is_nan q = false →
  lt q (of_Z 0) = true
  ∨ (ge q (of_Z 0) = true ∧ le q (of_Z 3) = true)
  ∨ gt q (of_Z 3) = true.
Proof.
  intros Hq.
  rewrite (ge_negb_lt q (of_Z 0) Hq eq_refl), (le_negb_gt q (of_Z 3) Hq eq_refl).
  destruct (lt q (of_Z 0)), (gt q (of_Z 3)); auto.
Qed.

Lemma calculatedValue_cases (q : float) :
  calculatedValue q = Str "-1" ∨ calculatedValue q = Str "0"
  ∨ calculatedValue q = Str "1" ∨ calculatedValue q = Undefined.
Proof.
  unfold calculatedValue.
  destruct (lt q (of_Z 0)), (ge q (of_Z 0) && le q (of_Z 3)), (gt q (of_Z 3));
    auto.
Qed.

End Handler.

(** C1. For a non-empty value that [handleInputChange] accepts for
    [quarterFluctuation], with [q] its [parseFloat]: [creditLong] and
    [resultantFluctuation] are both ["-1"] when [q < 0], both ["0"] when
    [0 <= q <= 3] and both ["1"] when [q > 3]. Every value with
    [-8 <= q <= 8] is accepted, every accepted number lies in that range,
    and one of the three cases applies to it. *)
Theorem quarterFluctuation_derivation
    (fd : gmap string field_value) (value : string) :
  value ≠ "" →
  let q := parseFloat value in
  (le (of_Z (-8)) q = true → le q (of_Z 8) = true →
     ∃ updated, handleInputChange fd "quarterFluctuation" value = SetFormData updated)
  ∧ ∀ updated,
      handleInputChange fd "quarterFluctuation" value = SetFormData updated →
      let creditLong := prop updated "creditLong" in
      let resultantFluctuation := prop updated "resultantFluctuation" in
      (lt q (of_Z 0) = true →
         creditLong = Str "-1" ∧ resultantFluctuation = Str "-1")
      ∧ (ge q (of_Z 0) = true → le q (of_Z 3) = true →
         creditLong = Str "0" ∧ resultantFluctuation = Str "0")
      ∧ (gt q (of_Z 3) = true →
         creditLong = Str "1" ∧ resultantFluctuation = Str "1")
      ∧ (is_nan q = false →
         le (of_Z (-8)) q = true ∧ le q (of_Z 8) = true
         ∧ (lt q (of_Z 0) = true
            ∨ (ge q (of_Z 0) = true ∧ le q (of_Z 3) = true)
            ∨ gt q (of_Z 3) = true)).
Proof.
  intros Hne q. rewrite handle_quarterFluctuation, (nonempty_neqb _ Hne).
  fold q. cbn [andb]. split.
  - intros Hlo Hhi. apply le_not_gt in Hhi. apply ge_not_lt in Hlo.
    rewrite Hhi, Hlo. eauto.
  - intros updated H.
    destruct (gt q (of_Z 8)) eqn:Hhi; [discriminate H|].
    destruct (lt q (of_Z (-8))) eqn:Hlo; [discriminate H|].
    cbn in H. injection H as <-.
    destruct (derived_after_quarter fd value (calculatedValue q)) as (-> & -> & _).
    repeat split.
    + now apply calculatedValue_neg.
    + now apply calculatedValue_neg.
    + now apply calculatedValue_mid.
    + now apply calculatedValue_mid.
    + now apply calculatedValue_pos.
    + now apply calculatedValue_pos.
    + change (le (of_Z (-8)) q) with (ge q (of_Z (-8))).
      now rewrite (ge_negb_lt q (of_Z (-8))), Hlo.
    + now rewrite (le_negb_gt q (of_Z 8)), Hhi.
    + now apply calculatedValue_trichotomy.
Qed.

Lemma quarterFluctuation_derivation_witness :
  "2.5" ≠ ""
  ∧ prop (after_change initialFormData "quarterFluctuation" "2.5") "creditLong"
    = Str "0".
Proof.
  split; [discriminate|].
  pose proof (quarterFluctuation_derivation initialFormData "2.5"
                ltac:(discriminate)) as [_ H].
  specialize (H _ eq_refl). cbv zeta in H.
  destruct H as (_ & H & _).
  unfold after_change.
  exact (proj1 (H eq_refl eq_refl)).
Defined.

(** The derivation at every integer of the accepted range. *)
Example quarterFluctuation_integers :
  map (fun v => prop (after_change initialFormData "quarterFluctuation" v) "creditLong")
      ["-8"; "-7"; "-6"; "-5"; "-4"; "-3"; "-2"; "-1"; "0"; "1"; "2"; "3"; "4";
       "5"; "6"; "7"; "8"]
  = map Str ["-1"; "-1"; "-1"; "-1"; "-1"; "-1"; "-1"; "-1"; "0"; "0"; "0"; "0";
             "1"; "1"; "1"; "1"; "1"].
Proof. vm_compute. reflexivity. Qed.

(** C2. For [creditShort], [cph] and [ctl] the handler stores each of
    ["1"], ["0"] and ["-1"] in the field, and on every other non-empty
    value it returns before [setFormData], so the form state stays as it
    was. *)
Theorem discrete_fields_accept_exactly
    (fd : gmap string field_value) (n value : string) :
  n = "creditShort" ∨ n = "cph" ∨ n = "ctl" →
  (In value ["1"; "0"; "-1"] →
     handleInputChange fd n value = SetFormData (<[n := Str value]> fd)
     ∧ prop (after_change fd n value) n = Str value)
  ∧ (value ≠ "" → ¬ In value ["1"; "0"; "-1"] →
     handleInputChange fd n value = Return None
     ∧ after_change fd n value = fd).
Proof.
  intros Hn. unfold after_change. rewrite (handle_discrete fd n value Hn). split.
  - intros Hin. apply includes_In in Hin. unfold discrete_values. rewrite Hin.
    rewrite andb_false_r. split; [reflexivity|].
    unfold prop. by rewrite lookup_insert_eq.
  - intros Hne Hout. rewrite (nonempty_neqb _ Hne).
    destruct (includes discrete_values value) eqn:E.
    + apply includes_In in E. contradiction.
    + split; reflexivity.
Qed.

Lemma discrete_fields_accept_exactly_witness :
  handleInputChange initialFormData "cph" "-1"
    = SetFormData (<["cph" := Str "-1"]> initialFormData)
  ∧ handleInputChange initialFormData "ctl" "2" = Return None.
Proof.
  split.
  - apply (discrete_fields_accept_exactly initialFormData "cph" "-1").
    + right; left; reflexivity.
    + simpl; auto.
  - apply (discrete_fields_accept_exactly initialFormData "ctl" "2").
    + right; right; reflexivity.
    + discriminate.
    + simpl. intros [H | [H | [H | []]]]; discriminate H.
Defined.

(** C3. For [aph] and [atl], with [x] the [parseFloat] of a non-empty
    value: the handler stores the value when [-10 <= x <= 1], and alerts
    and leaves the form state as it was when [x > 1] or [x < -10]; for a
    number these are the only two cases. The values ["1.0"] and ["-10.0"]
    are stored, ["1.01"] and ["-10.01"] are not. *)
Theorem continuous_fields_range (fd : gmap string field_value) (n : string) :
  n = "aph" ∨ n = "atl" →
  (∀ value, value ≠ "" →
     let x := parseFloat value in
     (le (of_Z (-10)) x = true → le x (of_Z 1) = true →
        handleInputChange fd n value = SetFormData (<[n := Str value]> fd))
     ∧ (gt x (of_Z 1) = true ∨ lt x (of_Z (-10)) = true →
        (∃ msg, handleInputChange fd n value = Return (Some msg))
        ∧ after_change fd n value = fd)
     ∧ (is_nan x = false →
        (le (of_Z (-10)) x = true ∧ le x (of_Z 1) = true)
        ∨ (gt x (of_Z 1) = true ∨ lt x (of_Z (-10)) = true)))
  ∧ handleInputChange fd n "1.0" = SetFormData (<[n := Str "1.0"]> fd)
  ∧ handleInputChange fd n "-10.0" = SetFormData (<[n := Str "-10.0"]> fd)
  ∧ after_change fd n "1.01" = fd
  ∧ after_change fd n "-10.01" = fd.
Proof.
  intros Hn.
  assert (G : ∀ value, value ≠ "" →
     let x := parseFloat value in
     (le (of_Z (-10)) x = true → le x (of_Z 1) = true →
        handleInputChange fd n value = SetFormData (<[n := Str value]> fd))
     ∧ (gt x (of_Z 1) = true ∨ lt x (of_Z (-10)) = true →
        (∃ msg, handleInputChange fd n value = Return (Some msg))
        ∧ after_change fd n value = fd)
     ∧ (is_nan x = false →
        (le (of_Z (-10)) x = true ∧ le x (of_Z 1) = true)
        ∨ (gt x (of_Z 1) = true ∨ lt x (of_Z (-10)) = true))).
  { intros value Hne x. unfold after_change.
    rewrite (handle_continuous fd n value Hn), (nonempty_neqb _ Hne).
    fold x. cbn [andb]. repeat split.
    - intros Hlo Hhi. apply le_not_gt in Hhi. apply ge_not_lt in Hlo.
      now rewrite Hhi, Hlo.
    - assert (E : gt x (of_Z 1) || lt x (of_Z (-10)) = true)
        by (destruct H as [-> | ->]; [reflexivity | apply orb_true_r]).
      rewrite E. eauto.
    - assert (E : gt x (of_Z 1) || lt x (of_Z (-10)) = true)
        by (destruct H as [-> | ->]; [reflexivity | apply orb_true_r]).
      now rewrite E.
    - intros Hx.
      change (le (of_Z (-10)) x) with (ge x (of_Z (-10))).
      rewrite (ge_negb_lt x (of_Z (-10)) Hx eq_refl), (le_negb_gt x (of_Z 1) Hx eq_refl).
      destruct (gt x (of_Z 1)), (lt x (of_Z (-10))); auto. }
  split; [exact G|]. repeat split.
  - apply (G "1.0"); [discriminate | reflexivity | reflexivity].
  - apply (G "-10.0"); [discriminate | reflexivity | reflexivity].
  - apply (G "1.01"); [discriminate | left; reflexivity].
  - apply (G "-10.01"); [discriminate | right; reflexivity].
Qed.

Lemma continuous_fields_range_witness :
  handleInputChange initialFormData "aph" "0.25"
    = SetFormData (<["aph" := Str "0.25"]> initialFormData)
  ∧ after_change initialFormData "atl" "-10.01" = initialFormData.
Proof.
  split.
  - apply (continuous_fields_range initialFormData "aph" (or_introl eq_refl)).
    + discriminate.
    + reflexivity.
    + reflexivity.
  - apply (continuous_fields_range initialFormData "atl" (or_intror eq_refl)).
Defined.

(** A value that does not parse is neither above nor below a bound: the
    handler stores it, and for [quarterFluctuation] no branch assigns
    [calculatedValue]. The number inputs of the form deliver the empty
    string in place of such a value. *)
Example unparsed_value_stored (fd : gmap string field_value) :
  handleInputChange fd "aph" "abc" = SetFormData (<["aph" := Str "abc"]> fd)
  ∧ prop (after_change fd "quarterFluctuation" "abc") "creditLong" = Undefined
  ∧ prop (after_change fd "quarterFluctuation" "abc") "resultantFluctuation"
    = Undefined.
Proof.
  split; [reflexivity|].
  unfold after_change. rewrite handle_quarterFluctuation.
  change (parseFloat "abc") with NaN. cbn [negb String.eqb andb gt lt SFltb
    SFcompare orb].
  destruct (derived_after_quarter fd "abc" (calculatedValue NaN)) as (E1 & E2 & _).
  split; assumption.
Qed.

(** ** The fallback scorer *)

Section Fallback.

Implicit Types (fd : gmap string field_value) (random : float).

(** The label and the range the fallback returns, read off the score. *)
Lemma simulatePrediction_fields fd random :
  let r := simulatePrediction fd random in
  get r "prediction" =
    JStr (if 80 <=? score fd then "Very_Good"
          else if 50 <=? score fd then "Normal" else "Very_Bad")
  ∧ get r "loanRange" =
    JStr (if 80 <=? score fd then "$50,000 - $200,000"
          else if 50 <=? score fd then "$10,000 - $50,000" else "Not eligible")
  ∧ own_keys r = ["prediction"; "confidence"; "loanRange"; "factors"].
Proof.
  unfold simulatePrediction.
  destruct (80 <=? score fd), (50 <=? score fd); repeat split.
Qed.

(** Only the confidence depends on the random draw. *)
Lemma simulatePrediction_random fd random1 random2 (k : string) :
  k ≠ "confidence" →
  get (simulatePrediction fd random1) k = get (simulatePrediction fd random2) k.
Proof.
  intros Hk. unfold simulatePrediction.
  destruct (80 <=? score fd), (50 <=? score fd); unfold get, find; cbn [fst snd];
    destruct (String.eqb "prediction" k); try reflexivity;
    (destruct (String.eqb_spec "confidence" k); [congruence | reflexivity]).
Qed.

Lemma score_le_15 fd :
  gt (or_zero (parseFloat (ToString (prop fd "creditShort")))) (of_Z 650) = false →
  gt (or_zero (parseFloat (ToString (prop fd "creditLong")))) (of_Z 650) = false →
  strict_eq (prop fd "paymentHistory") "excellent" = false →
  score fd <= 15.
Proof.
  unfold score. intros -> -> ->.
  destruct (gt (parseFloat (ToString (prop fd "cph"))) lit_0_7); lia.
Qed.

Lemma low_score_Very_Bad fd random :
  score fd <= 15 →
  get (simulatePrediction fd random) "prediction" = JStr "Very_Bad"
  ∧ get (simulatePrediction fd random) "loanRange" = JStr "Not eligible".
Proof.
  intros H. destruct (simulatePrediction_fields fd random) as (-> & -> & _).
  destruct (80 <=? score fd) eqn:E1; [apply Z.leb_le in E1; lia|].
  destruct (50 <=? score fd) eqn:E2; [apply Z.leb_le in E2; lia|].
  split; reflexivity.
Qed.

End Fallback.

(** C4. On every input the fallback returns one of the three labels
    together with the range the specification's mapper gives for that
    label: ["$50,000 - $200,000"] with [Very_Good], ["$10,000 - $50,000"]
    with [Normal], ["Not eligible"] with [Very_Bad]. Each label is
    returned on some input, and the range depends on the label alone. *)
Theorem fallback_range_mapping :
  (∀ fd random, ∃ l,
     get (simulatePrediction fd random) "prediction" = JStr (label_name l)
     ∧ get (simulatePrediction fd random) "loanRange" = JStr (mapRange_spec l))
  ∧ (∀ fd random,
       (get (simulatePrediction fd random) "prediction" = JStr "Very_Good" →
        get (simulatePrediction fd random) "loanRange" = JStr "$50,000 - $200,000")
       ∧ (get (simulatePrediction fd random) "prediction" = JStr "Normal" →
          get (simulatePrediction fd random) "loanRange" = JStr "$10,000 - $50,000")
       ∧ (get (simulatePrediction fd random) "prediction" = JStr "Very_Bad" →
          get (simulatePrediction fd random) "loanRange" = JStr "Not eligible"))
  ∧ (∀ l, ∃ fd, ∀ random,
       get (simulatePrediction fd random) "prediction" = JStr (label_name l))
  ∧ (∀ fd1 random1 fd2 random2,
       get (simulatePrediction fd1 random1) "prediction"
         = get (simulatePrediction fd2 random2) "prediction" →
       get (simulatePrediction fd1 random1) "loanRange"
         = get (simulatePrediction fd2 random2) "loanRange").
Proof.
  repeat split.
  - intros fd random.
    destruct (simulatePrediction_fields fd random) as (-> & -> & _).
    destruct (80 <=? score fd); [exists Very_Good; split; reflexivity|].
    destruct (50 <=? score fd); [exists Normal | exists Very_Bad]; split; reflexivity.
  - destruct (simulatePrediction_fields fd random) as (-> & -> & _).
    destruct (80 <=? score fd), (50 <=? score fd); intros H;
      first [reflexivity | discriminate H].
  - destruct (simulatePrediction_fields fd random) as (-> & -> & _).
    destruct (80 <=? score fd), (50 <=? score fd); intros H;
      first [reflexivity | discriminate H].
  - destruct (simulatePrediction_fields fd random) as (-> & -> & _).
    destruct (80 <=? score fd), (50 <=? score fd); intros H;
      first [reflexivity | discriminate H].
  - intros l.
    exists (match l with
            | Very_Good => form_scoring_85
            | Normal => form_scoring_60
            | Very_Bad => ∅
            end).
    intros random.
    rewrite (proj1 (simulatePrediction_fields _ random)).
    destruct l; vm_compute; reflexivity.
  - intros fd1 random1 fd2 random2.
    destruct (simulatePrediction_fields fd1 random1) as (-> & -> & _).
    destruct (simulatePrediction_fields fd2 random2) as (-> & -> & _).
    destruct (80 <=? score fd1), (50 <=? score fd1),
      (80 <=? score fd2), (50 <=? score fd2); intros H;
      first [reflexivity | discriminate H].
Qed.

(** ** Validated form states *)

Lemma sample_form_validated : validated sample_form.
Proof.
  split.
  - left. reflexivity.
  - left. reflexivity.
  - right; left. reflexivity.
  - exists "0.5". repeat split.
  - exists "-2.25". repeat split.
  - exists "5". repeat split.
  - reflexivity.
  - reflexivity.
  - reflexivity.
Defined.

(** C5. On a validated form state the fallback's score is at most 15,
    and whatever [Math.random()] returns the prediction is ['Very_Bad']
    and the loan range ['Not eligible']. *)
Theorem validated_form_Very_Bad (fd : gmap string field_value) :
  validated fd →
  score fd <= 15
  ∧ ∀ random,
      get (simulatePrediction fd random) "prediction" = JStr "Very_Bad"
      ∧ get (simulatePrediction fd random) "loanRange" = JStr "Not eligible".
Proof.
  intros V.
  assert (S : score fd <= 15).
  { apply score_le_15.
    - destruct (v_creditShort fd V) as [-> | [-> | ->]]; reflexivity.
    - rewrite (v_creditLong fd V).
      destruct (calculatedValue_cases
                  (parseFloat (ToString (prop fd "quarterFluctuation"))))
        as [-> | [-> | [-> | ->]]]; reflexivity.
    - unfold prop. now rewrite (v_paymentHistory fd V). }
  split; [exact S|].
  intros random. now apply low_score_Very_Bad.
Qed.

Lemma validated_form_Very_Bad_witness :
  validated sample_form
  ∧ score sample_form = 15
  ∧ get (simulatePrediction sample_form pos_zero) "prediction" = JStr "Very_Bad".
Proof.
  split; [exact sample_form_validated|].
  split; [reflexivity|].
  exact (proj1 (proj2 (validated_form_Very_Bad sample_form sample_form_validated)
                  pos_zero)).
Defined.

(** ** Fallback results against model-backed results *)

Lemma echo_reads_alike (fd : gmap string field_value) (random : float) (k : string) :
  get (model_result (echo (simulatePrediction fd random))) k
  = get (simulatePrediction fd random) k.
Proof.
  unfold simulatePrediction.
  destruct (80 <=? score fd), (50 <=? score fd);
    unfold echo, model_result, get, find; cbn [fst snd];
    repeat (match goal with
            | |- context [String.eqb ?a k] =>
                destruct (String.eqb_spec a k); [subst k; reflexivity|]
            end); reflexivity.
Qed.

Lemma simulatePrediction_untagged (fd : gmap string field_value) (random : float) :
  ¬ carries_tag (simulatePrediction fd random).
Proof.
  intros [k H].
  apply (H (model_result (echo (simulatePrediction fd random)))).
  - exists (echo (simulatePrediction fd random)). repeat split; discriminate.
  - apply echo_reads_alike.
Qed.

Lemma callPredictionAPI_failure (fd : gmap string field_value) (random : float) :
  callPredictionAPI fd FetchRejected random = simulatePrediction fd random
  ∧ (∀ json, callPredictionAPI fd (Response false json) random
             = simulatePrediction fd random)
  ∧ callPredictionAPI fd (Response true None) random = simulatePrediction fd random
  ∧ callPredictionAPI fd (Response true (Some JNull)) random
    = simulatePrediction fd random.
Proof. repeat split. Qed.

(** C6, as the specification states it, fails: with the fetch rejected
    the page returns the fallback's object, whose four properties are
    those of every model-backed result, and no property of it reads as a
    value that a model-backed result cannot have. *)
Lemma fallback_result_untagged :
  own_keys (callPredictionAPI sample_form FetchRejected pos_zero)
    = ["prediction"; "confidence"; "loanRange"; "factors"]
  ∧ ¬ carries_tag (callPredictionAPI sample_form FetchRejected pos_zero).
Proof.
  split; [reflexivity|]. apply simulatePrediction_untagged.
Qed.

(** C6, amended. When the fetch is rejected, the status is not ok, the
    body is not JSON or the body is [null], [callPredictionAPI] returns
    [simulatePrediction]'s object. That object has exactly the properties
    [prediction], [confidence], [loanRange] and [factors]; a model-backed
    result has these and [modelPredictions] and [processingTime]; no
    property of the fallback's object marks it as a fallback. *)
Theorem fallback_result_shape (fd : gmap string field_value) (random : float) :
  callPredictionAPI fd FetchRejected random = simulatePrediction fd random
  ∧ (∀ json, callPredictionAPI fd (Response false json) random
             = simulatePrediction fd random)
  ∧ callPredictionAPI fd (Response true None) random = simulatePrediction fd random
  ∧ callPredictionAPI fd (Response true (Some JNull)) random
    = simulatePrediction fd random
  ∧ own_keys (simulatePrediction fd random)
    = ["prediction"; "confidence"; "loanRange"; "factors"]
  ∧ (∀ data, own_keys (model_result data)
             = ["prediction"; "confidence"; "loanRange"; "factors";
                "modelPredictions"; "processingTime"])
  ∧ ¬ carries_tag (simulatePrediction fd random).
Proof.
  destruct (callPredictionAPI_failure fd random) as (H1 & H2 & H3 & H4).
  repeat split; try assumption.
  - apply simulatePrediction_fields.
  - apply simulatePrediction_untagged.
Qed.

(** ** Determinism *)

(** C7, as the specification states it, fails on the fallback path: on
    the same form state, with the fetch rejected both times, the draws 0
    and 0.5 of [Math.random()] give the confidences ["60.0"] and ["70.0"]. *)
Lemma fallback_confidence_varies :
  get (callPredictionAPI sample_form FetchRejected (of_decimal false 0 0)) "confidence"
    = JStr "60.0"
  ∧ get (callPredictionAPI sample_form FetchRejected (of_decimal false 5 (-1)))
        "confidence"
    = JStr "70.0"
  ∧ callPredictionAPI sample_form FetchRejected (of_decimal false 0 0)
    ≠ callPredictionAPI sample_form FetchRejected (of_decimal false 5 (-1)).
Proof.
  split; [vm_compute; reflexivity|].
  split; [vm_compute; reflexivity|].
  vm_compute. discriminate.
Qed.

(** C7, amended. Two invocations on the same form state and the same
    outcome of the fetch return the same value for every property other
    than [confidence] (the prediction label, the loan range and the
    factors among them); a model-backed result does not depend on the
    random draw at all, and the fallback's confidence is a function of the
    form state and of the one value [Math.random()] returns. *)
Theorem prediction_deterministic_up_to_confidence
    (fd : gmap string field_value) (outcome : fetch_outcome)
    (random1 random2 : float) :
  (∀ k, k ≠ "confidence" →
     get (callPredictionAPI fd outcome random1) k
     = get (callPredictionAPI fd outcome random2) k)
  ∧ get (callPredictionAPI fd outcome random1) "prediction"
    = get (callPredictionAPI fd outcome random2) "prediction"
  ∧ get (callPredictionAPI fd outcome random1) "loanRange"
    = get (callPredictionAPI fd outcome random2) "loanRange"
  ∧ (∀ data, data ≠ JNull → data ≠ JUndefined →
       callPredictionAPI fd (Response true (Some data)) random1
       = callPredictionAPI fd (Response true (Some data)) random2)
  ∧ get (simulatePrediction fd random1) "confidence"
    = JStr (toFixed 1
        (if 80 <=? score fd then add (of_Z 92) (mul random1 (of_Z 6))
         else if 50 <=? score fd then add (of_Z 75) (mul random1 (of_Z 15))
         else add (of_Z 60) (mul random1 (of_Z 20)))).
Proof.
  assert (G : ∀ k, k ≠ "confidence" →
     get (callPredictionAPI fd outcome random1) k
     = get (callPredictionAPI fd outcome random2) k).
  { intros k Hk. unfold callPredictionAPI.
    destruct outcome as [|[] [[]|]]; try reflexivity;
      now apply simulatePrediction_random. }
  split; [exact G|].
  split; [apply G; discriminate|].
  split; [apply G; discriminate|].
  split.
  - intros data H1 H2. destruct data; try reflexivity; contradiction.
  - unfold simulatePrediction.
    destruct (80 <=? score fd), (50 <=? score fd); reflexivity.
Qed.

(** ** Invariants of the page *)

Import Page.

Section Reachable.

Implicit Types (s : state) (e : event) (es : list event)
  (fd : gmap string field_value).

(** An invariant of every step holds after every run, and what every
    step emits under the invariant is all a run emits. *)
Lemma run_invariant (I : state → Prop) :
  (∀ s e, I s → I (fst (step s e))) →
  ∀ es s, I s → I (fst (run s es)).
Proof.
  intros Hstep es. induction es as [|e es IH]; intros s Hs; [exact Hs|].
  simpl. specialize (Hstep s e Hs).
  destruct (step s e) as [s1 out1]. specialize (IH s1 Hstep).
  destruct (run s1 es) as [s2 out2]. exact IH.
Qed.

Lemma run_effects (I : state → Prop) (Q : effect → Prop) :
  (∀ s e, I s → I (fst (step s e))) →
  (∀ s e x, I s → In x (snd (step s e)) → Q x) →
  ∀ es s x, I s → In x (snd (run s es)) → Q x.
Proof.
  intros Hstep Hout es. induction es as [|e es IH]; intros s x Hs; [intros []|].
  simpl. specialize (Hstep s e Hs). specialize (Hout s e).
  destruct (step s e) as [s1 out1]. specialize (IH s1).
  destruct (run s1 es) as [s2 out2]. simpl in *.
  intros Hx. apply in_app_or in Hx as [Hx | Hx]; eauto.
Qed.

Lemma has_onChange_cases (n : string) :
  has_onChange n = true →
  n = "creditShort" ∨ n = "cph" ∨ n = "ctl" ∨ n = "aph" ∨ n = "atl"
  ∨ n = "quarterFluctuation".
Proof.
  unfold has_onChange, form_elements, existsb; cbn [el_name el_onChange].
  repeat (match goal with
          | |- context [String.eqb ?a n] =>
              destruct (String.eqb_spec a n); [subst n; tauto|]
          end).
  rewrite !andb_false_r. simpl. discriminate.
Qed.

(** A change of a field other than [quarterFluctuation] writes that
    field at most. *)
Lemma after_change_other fd (n value k : string) :
  has_onChange n = true → n ≠ "quarterFluctuation" → k ≠ n →
  prop (after_change fd n value) k = prop fd k.
Proof.
  intros Hn Hq Hk. unfold after_change.
  destruct (has_onChange_cases n Hn) as [E | [E | [E | [E | [E | E]]]]];
    [rewrite (handle_discrete fd n value (or_introl E))
    |rewrite (handle_discrete fd n value (or_intror (or_introl E)))
    |rewrite (handle_discrete fd n value (or_intror (or_intror E)))
    |rewrite (handle_continuous fd n value (or_introl E))
    |rewrite (handle_continuous fd n value (or_intror E))
    |contradiction];
    match goal with |- context [if ?c then _ else _] => destruct c end;
    try reflexivity; unfold prop; by rewrite lookup_insert_ne.
Qed.

Lemma after_change_quarterFluctuation fd value :
  after_change fd "quarterFluctuation" value = fd
  ∨ ∃ d, (value = "" → d = Str "")
         ∧ after_change fd "quarterFluctuation" value
           = <["quarterFluctuation" := Str value]> (
             <["resultantFluctuation" := d]> (<["creditLong" := d]> fd)).
Proof.
  unfold after_change. rewrite handle_quarterFluctuation.
  match goal with |- context [if ?c then Return _ else _] => destruct c end;
    [left; reflexivity|].
  right. eexists. split; [|reflexivity].
  intros ->. reflexivity.
Qed.

Lemma onChange_formData s (n value : string) :
  formData (fst (onChange s n value))
  = if has_onChange n then after_change (formData s) n value else formData s.
Proof.
  unfold onChange, after_change. destruct (has_onChange n); [|reflexivity].
  destruct (handleInputChange (formData s) n value) as [|[]]; reflexivity.
Qed.

Lemma initialFormData_consistent : derived_consistent initialFormData.
Proof. split; [reflexivity|]. intros _. split; reflexivity. Qed.

Lemma after_change_consistent fd (n value : string) :
  has_onChange n = true →
  derived_consistent fd → derived_consistent (after_change fd n value).
Proof.
  intros Hn [H1 H2].
  destruct (String.eqb_spec n "quarterFluctuation") as [-> | Hq].
  - destruct (after_change_quarterFluctuation fd value) as [-> | (d & Hd & ->)];
      [split; assumption|].
    destruct (derived_after_quarter fd value d) as (E1 & E2 & E3).
    cbv zeta in E1, E2, E3. unfold derived_consistent.
    rewrite E1, E2, E3. split; [reflexivity|].
    intros [= ->]. rewrite (Hd eq_refl). split; reflexivity.
  - assert (K : ∀ k, has_onChange k = false →
                 prop (after_change fd n value) k = prop fd k).
    { intros k Hk. apply after_change_other; try assumption.
      intros ->. congruence. }
    unfold derived_consistent.
    rewrite (K "creditLong" eq_refl), (K "resultantFluctuation" eq_refl).
    rewrite (after_change_other fd n value "quarterFluctuation" Hn Hq);
      [split; assumption | congruence].
Qed.

Lemma step_consistent s e :
  derived_consistent (formData s) → derived_consistent (formData (fst (step s e))).
Proof.
  intros H. destruct e as [n value|i|outcome random|]; simpl.
  - rewrite onChange_formData. destruct (has_onChange n) eqn:Hn; [|exact H].
    now apply after_change_consistent.
  - unfold onClickModel. destruct (model_cards !! i); exact H.
  - unfold handleSubmit. destruct (negb (truthy (specificModel s))); exact H.
  - exact initialFormData_consistent.
Qed.

Lemma step_service s e :
  service_consistent s → service_consistent (fst (step s e)).
Proof.
  intros [H1 H2]. destruct e as [n value|i|outcome random|]; simpl.
  - unfold onChange. destruct (has_onChange n); [|split; assumption].
    destruct (handleInputChange (formData s) n value) as [|[]]; split; assumption.
  - unfold onClickModel.
    destruct i as [|[|[|[|i]]]]; simpl; try (split; assumption);
      (split; [tauto|]); intros k [= <-]; simpl; tauto.
  - unfold handleSubmit.
    destruct (negb (truthy (specificModel s))); split; assumption.
  - split; [assumption|]. intros k [=].
Qed.

(** Under the invariant the body names models of the declared service. *)
Lemma request_body_models s :
  service_consistent s →
  ∃ models, body_selectedModels (request_body s) = Some models
            ∧ ∀ m, In m models → In (m, serviceType (request_body s)) registry_spec.
Proof.
  intros [H1 H2]. unfold request_body; cbn [body_selectedModels serviceType].
  destruct (specificModel s) as [k|] eqn:E.
  - specialize (H2 k eq_refl).
    assert (T : truthy (Some k) = true).
    { simpl in H2. destruct H2 as [H | [H | [H | [H | []]]]];
        injection H as <- _; reflexivity. }
    rewrite T. exists [k]. split; [reflexivity|].
    intros m [<- | []]. exact H2.
  - destruct H1 as [-> | ->]; eexists; (split; [reflexivity|]);
      simpl; intros m [<- | [<- | []]]; tauto.
Qed.

End Reachable.

Lemma initial_service_consistent : service_consistent initial.
Proof. split; [left; reflexivity|]. intros k [=]. Qed.

(** Called directly with the name of a derived field, the handler would
    take its [default] branch and store the value: it is the form, which
    gives those two inputs no [onChange], that keeps them derived. *)
Example handler_default_branch (fd : gmap string field_value) :
  handleInputChange fd "creditLong" "1" = SetFormData (<["creditLong" := Str "1"]> fd)
  ∧ has_onChange "creditLong" = false
  ∧ has_onChange "resultantFluctuation" = false.
Proof. repeat split. Qed.

(** C8. After every sequence of events: a change event of an element
    other than [quarterFluctuation] leaves [creditLong] and
    [resultantFluctuation] as they were; when [quarterFluctuation] is
    empty both derived fields are empty; and the two inputs of the derived
    fields are read-only and pass no change event to the handler. *)
Theorem derived_fields_only_from_quarterFluctuation (es : list event) :
  let s := fst (run initial es) in
  (∀ n value, n ≠ "quarterFluctuation" →
     let s' := fst (step s (Change n value)) in
     prop (formData s') "creditLong" = prop (formData s) "creditLong"
     ∧ prop (formData s') "resultantFluctuation"
       = prop (formData s) "resultantFluctuation")
  ∧ (prop (formData s) "quarterFluctuation" = Str "" →
     prop (formData s) "creditLong" = Str ""
     ∧ prop (formData s) "resultantFluctuation" = Str "")
  ∧ (∀ el, In el form_elements →
       el_name el = "creditLong" ∨ el_name el = "resultantFluctuation" →
       el_readOnly el = true ∧ el_onChange el = false).
Proof.
  intros s. split; [|split].
  - intros n value Hq s'. subst s'. simpl. rewrite onChange_formData.
    destruct (has_onChange n) eqn:Hn; [|split; reflexivity].
    split; apply after_change_other; try assumption; intros <-; discriminate Hn.
  - apply (run_invariant (fun s => derived_consistent (formData s))
             step_consistent es initial initialFormData_consistent).
  - intros el Hel Hname. simpl in Hel.
    destruct Hel as [<- | [<- | [<- | [<- | [<- | [<- | [<- | [<- | []]]]]]]]];
      simpl in Hname; destruct Hname as [E | E];
      first [discriminate E | split; reflexivity].
Qed.

(** C9. Every request a run of the page sends has a [selectedModels]
    list, and each of its members is registered under the request's
    [serviceType]: [xgboost] and [random_forest] with ['loan'],
    [logistic] and [knn] with ['classification']. *)
Theorem requests_match_service (es : list event) (body : request) :
  In (Fetch body) (snd (run initial es)) →
  ∃ models, body_selectedModels body = Some models
            ∧ ∀ m, In m models → In (m, serviceType body) registry_spec.
Proof.
  apply (run_effects service_consistent
           (fun x => match x with
                     | Fetch b =>
                         ∃ models, body_selectedModels b = Some models
                           ∧ ∀ m, In m models → In (m, serviceType b) registry_spec
                     | Alert _ => True
                     end)
           step_service); [|exact initial_service_consistent].
  intros s e x Hs Hx. destruct x as [msg|b]; [exact I|].
  destruct e as [n value|i|outcome random|]; simpl in Hx.
  - unfold onChange in Hx. destruct (has_onChange n); [|destruct Hx].
    destruct (handleInputChange (formData s) n value) as [|[]]; simpl in Hx;
      intuition discriminate.
  - unfold onClickModel in Hx. destruct (model_cards !! i); destruct Hx.
  - unfold handleSubmit in Hx.
    destruct (negb (truthy (specificModel s))); simpl in Hx;
      destruct Hx as [Hx | []]; [discriminate Hx|].
    injection Hx as <-. now apply request_body_models.
  - destruct Hx.
Qed.

Lemma requests_match_service_witness :
  In (Fetch (request_body (fst (run initial [ClickModel 2; Change "cph" "1"]))))
     (snd (run initial [ClickModel 2; Change "cph" "1"; Submit FetchRejected pos_zero]))
  ∧ ∃ models,
      body_selectedModels
        (request_body (fst (run initial [ClickModel 2; Change "cph" "1"])))
        = Some models
      ∧ ∀ m, In m models → In (m, "classification") registry_spec.
Proof.
  assert (H : In (Fetch (request_body (fst (run initial [ClickModel 2; Change "cph" "1"]))))
     (snd (run initial [ClickModel 2; Change "cph" "1"; Submit FetchRejected pos_zero])))
    by (left; reflexivity).
  split; [exact H|].
  exact (requests_match_service _ _ H).
Defined.

(** C10. After every sequence of change events, model clicks, submits
    and resets from the initial state, [creditLong] and
    [resultantFluctuation] hold the same value. *)
Theorem derived_fields_equal (es : list event) :
  let fd := formData (fst (run initial es)) in
  prop fd "creditLong" = prop fd "resultantFluctuation".
Proof.
  intros fd.
  apply (run_invariant (fun s => derived_consistent (formData s))
           step_consistent es initial initialFormData_consistent).
Qed.

(** * Further properties *)

(** ** The form states the page keeps to *)

Section Kept.

Implicit Types (fd : gmap string field_value) (value : string).

Lemma prop_insert_eq fd (k : string) (v : field_value) :
  prop (<[k := v]> fd) k = v.
Proof. unfold prop. by rewrite lookup_insert_eq. Qed.

Lemma prop_insert_ne fd (k k' : string) (v : field_value) :
  k ≠ k' → prop (<[k := v]> fd) k' = prop fd k'.
Proof. intros H. unfold prop. by rewrite lookup_insert_ne. Qed.

Lemma dom_insert_kept fd (k : string) (v : field_value) :
  dom fd = dom initialFormData → k ∈ dom initialFormData →
  dom (<[k := v]> fd) = dom initialFormData.
Proof.
  intros H Hk. rewrite dom_insert_L, H.
  apply subseteq_union_1_L. by apply singleton_subseteq_l.
Qed.

Lemma initialFormData_kept : kept_form initialFormData.
Proof.
  split; try reflexivity.
  - left; reflexivity.
  - left; reflexivity.
  - left; reflexivity.
  - exists "". split; [reflexivity | left; reflexivity].
  - exists "". split; [reflexivity | left; reflexivity].
  - exists "". split; [reflexivity | left; reflexivity].
Qed.

Lemma derived_of_Str value :
  derived_of (Str value)
  = if negb (String.eqb value "") then calculatedValue (parseFloat value) else Str "".
Proof. destruct value; reflexivity. Qed.

(** What the check of a discrete field lets through. *)
Lemma discrete_check value :
  negb (String.eqb value "") && negb (includes discrete_values value) = false →
  empty_or_discrete (Str value).
Proof.
  intros H. apply andb_false_iff in H as [H | H].
  - left. apply negb_false_iff, String.eqb_eq in H. now subst.
  - right. apply negb_false_iff, includes_In in H. simpl in H.
    destruct H as [<- | [<- | [<- | []]]]; auto.
Qed.

Lemma range_check value (lo hi : Z) :
  negb (String.eqb value "")
  && (gt (parseFloat value) (of_Z hi) || lt (parseFloat value) (of_Z lo)) = false →
  empty_or_not_outside lo hi (Str value).
Proof.
  intros H. exists value. split; [reflexivity|].
  apply andb_false_iff in H as [H | H].
  - left. now apply negb_false_iff, String.eqb_eq in H.
  - right. now apply orb_false_iff in H.
Qed.

Ltac kept_fields H :=
  destruct H as [D T CS CP CT AP AT QF CL RF];
  split;
  repeat (rewrite prop_insert_eq || rewrite prop_insert_ne by discriminate);
  try assumption;
  try (repeat (apply dom_insert_kept;
               [| apply elem_of_dom; eexists; reflexivity]);
       assumption).

Lemma after_change_kept fd (n value : string) :
  has_onChange n = true → kept_form fd → kept_form (after_change fd n value).
Proof.
  intros Hn K. unfold after_change.
  destruct (has_onChange_cases n Hn) as [E | [E | [E | [E | [E | E]]]]]; subst n.
  - rewrite (handle_discrete fd _ value (or_introl eq_refl)).
    destruct (negb (String.eqb value "") && _) eqn:C; [exact K|].
    apply discrete_check in C. kept_fields K.
  - rewrite (handle_discrete fd _ value (or_intror (or_introl eq_refl))).
    destruct (negb (String.eqb value "") && _) eqn:C; [exact K|].
    apply discrete_check in C. kept_fields K.
  - rewrite (handle_discrete fd _ value (or_intror (or_intror eq_refl))).
    destruct (negb (String.eqb value "") && _) eqn:C; [exact K|].
    apply discrete_check in C. kept_fields K.
  - rewrite (handle_continuous fd _ value (or_introl eq_refl)).
    destruct (negb (String.eqb value "") && _) eqn:C; [exact K|].
    apply range_check in C. kept_fields K.
  - rewrite (handle_continuous fd _ value (or_intror eq_refl)).
    destruct (negb (String.eqb value "") && _) eqn:C; [exact K|].
    apply range_check in C. kept_fields K.
  - rewrite handle_quarterFluctuation.
    destruct (negb (String.eqb value "") && _) eqn:C; [exact K|].
    apply range_check in C. cbv zeta. kept_fields K.
    + symmetry. apply derived_of_Str.
    + symmetry. apply derived_of_Str.
Qed.

Lemma step_kept (s : Page.state) (e : Page.event) :
  kept_form (Page.formData s) → kept_form (Page.formData (fst (Page.step s e))).
Proof.
  intros H. destruct e as [n value|i|outcome random|]; simpl.
  - rewrite onChange_formData. destruct (has_onChange n) eqn:Hn; [|exact H].
    now apply after_change_kept.
  - unfold onClickModel. destruct (model_cards !! i); exact H.
  - unfold handleSubmit. destruct (negb (truthy (specificModel s))); exact H.
  - exact initialFormData_kept.
Qed.

Lemma run_kept (es : list Page.event) :
  kept_form (Page.formData (fst (Page.run Page.initial es))).
Proof.
  apply (run_invariant (fun s => kept_form (Page.formData s)) step_kept
           es Page.initial initialFormData_kept).
Qed.

(** On a kept form only the [cph] test can add to the score. *)
Lemma kept_score fd :
  kept_form fd →
  score fd = if gt (parseFloat (ToString (prop fd "cph"))) lit_0_7 then 15 else 0.
Proof.
  intros K. unfold score.
  assert (A : gt (or_zero (parseFloat (ToString (prop fd "creditShort")))) (of_Z 650)
              = false).
  { destruct (k_creditShort fd K) as [-> | [-> | [-> | ->]]]; reflexivity. }
  assert (B : gt (or_zero (parseFloat (ToString (prop fd "creditLong")))) (of_Z 650)
              = false).
  { rewrite (k_creditLong fd K).
    destruct (k_quarterFluctuation fd K) as (v & -> & _).
    rewrite derived_of_Str. destruct (negb (String.eqb v "")); [|reflexivity].
    destruct (calculatedValue_cases (parseFloat v)) as [-> | [-> | [-> | ->]]];
      reflexivity. }
  assert (C : strict_eq (prop fd "paymentHistory") "excellent" = false).
  { assert (N : fd !! "paymentHistory" = None).
    { apply not_elem_of_dom. rewrite (k_dom fd K). now apply not_elem_of_dom. }
    unfold prop. now rewrite N. }
  rewrite A, B, C.
  destruct (gt (parseFloat (ToString (prop fd "cph"))) lit_0_7); reflexivity.
Qed.

End Kept.

(** X2. After every sequence of events the form has exactly the nine
    properties it started with, [timeLimitation] is still empty, each of
    [creditShort], [cph] and [ctl] is empty or one of ["1"], ["0"],
    ["-1"], and each of [aph], [atl] and [quarterFluctuation] is empty or
    holds a value that is neither above nor below its bounds. *)
Theorem page_keeps_checked_fields (es : list Page.event) :
  let fd := Page.formData (fst (Page.run Page.initial es)) in
  dom fd = dom initialFormData
  ∧ prop fd "timeLimitation" = Str ""
  ∧ empty_or_discrete (prop fd "creditShort")
  ∧ empty_or_discrete (prop fd "cph")
  ∧ empty_or_discrete (prop fd "ctl")
  ∧ empty_or_not_outside (-10) 1 (prop fd "aph")
  ∧ empty_or_not_outside (-10) 1 (prop fd "atl")
  ∧ empty_or_not_outside (-8) 8 (prop fd "quarterFluctuation").
Proof.
  intros fd. destruct (run_kept es) as [D T CS CP CT AP AT QF _ _].
  repeat split; assumption.
Qed.

(** X3. After every sequence of events [creditLong] and
    [resultantFluctuation] are what the handler derives from the value
    [quarterFluctuation] holds now: [calculatedValue] of its [parseFloat]
    when it is not empty, the empty string when it is. A rejected or a
    later change never leaves them behind. *)
Theorem derived_fields_follow_quarterFluctuation (es : list Page.event) :
  let fd := Page.formData (fst (Page.run Page.initial es)) in
  ∃ value, prop fd "quarterFluctuation" = Str value
    ∧ prop fd "creditLong"
      = (if negb (String.eqb value "")
         then calculatedValue (parseFloat value) else Str "")
    ∧ prop fd "resultantFluctuation"
      = (if negb (String.eqb value "")
         then calculatedValue (parseFloat value) else Str "").
Proof.
  intros fd. destruct (run_kept es) as [_ _ _ _ _ _ _ QF CL RF].
  fold fd in QF, CL, RF. destruct QF as (value & E & _).
  exists value. rewrite CL, RF, E, derived_of_Str. auto.
Qed.

(** X4. Whatever the user did on the page and whatever [Math.random()]
    returns, the fallback scores the form 0 or 15 and answers
    ['Very_Bad'] with ['Not eligible']; the card then reads 'Loan
    Declined' or 'High-Risk Customer' and shows the improvement tips. The
    branches ['Very_Good'] and ['Normal'] of [simulatePrediction] are out
    of the page's reach. *)
Theorem fallback_on_page_always_declines (es : list Page.event) (random : float) :
  let s := fst (Page.run Page.initial es) in
  let r := simulatePrediction (Page.formData s) random in
  (score (Page.formData s) = 0 ∨ score (Page.formData s) = 15)
  ∧ get r "prediction" = JStr "Very_Bad"
  ∧ get r "loanRange" = JStr "Not eligible"
  ∧ ResultView.result_panel r = Some ResultView.ImprovementTips
  ∧ (ResultView.headline (Page.selectedService s) r = "Loan Declined"
     ∨ ResultView.headline (Page.selectedService s) r = "High-Risk Customer").
Proof.
  intros s r.
  pose proof (kept_score _ (run_kept es)) as S. fold s in S.
  assert (S15 : score (Page.formData s) <= 15)
    by (rewrite S; destruct (gt _ lit_0_7); lia).
  destruct (low_score_Very_Bad (Page.formData s) random S15) as [P L].
  fold r in P, L.
  split; [rewrite S; destruct (gt _ lit_0_7); auto|].
  split; [exact P|]. split; [exact L|].
  split.
  - unfold ResultView.result_panel. now rewrite P.
  - unfold ResultView.headline. rewrite P.
    destruct (run_invariant service_consistent step_service es Page.initial
                initial_service_consistent) as [[E | E] _];
      fold s in E; rewrite E; auto.
Qed.

(** X5. Every request the page sends names exactly one model, the one
    of a model button, under that button's service: the default pairs of
    [selectedModels] are never sent. A run without a click on a model
    button sends no request at all. *)
Theorem requests_name_one_model (es : list Page.event) :
  (∀ body, In (Page.Fetch body) (snd (Page.run Page.initial es)) →
     ∃ card, In card Page.model_cards
       ∧ Page.body_selectedModels body = Some [Page.key card]
       ∧ Page.serviceType body = Page.service card)
  ∧ ((∀ i, ¬ In (Page.ClickModel i) es) →
     ∀ body, ¬ In (Page.Fetch body) (snd (Page.run Page.initial es))).
Proof.
  split.
  - intros body.
    apply (run_effects service_consistent
             (fun x => match x with
                       | Fetch b =>
                           ∃ card, In card model_cards
                             ∧ body_selectedModels b = Some [key card]
                             ∧ serviceType b = service card
                       | Alert _ => True
                       end)
             step_service); [|exact initial_service_consistent].
    intros s e x [_ Hs] Hx. destruct x as [msg|b]; [exact I|].
    destruct e as [n value|i|outcome random|]; simpl in Hx.
    + unfold onChange in Hx. destruct (has_onChange n); [|destruct Hx].
      destruct (handleInputChange (formData s) n value) as [|[]]; simpl in Hx;
        intuition discriminate.
    + unfold onClickModel in Hx. destruct (model_cards !! i); destruct Hx.
    + unfold handleSubmit in Hx.
      destruct (truthy (specificModel s)) eqn:T; simpl in Hx;
        destruct Hx as [Hx | []]; [|discriminate Hx].
      injection Hx as <-. unfold request_body; cbn [body_selectedModels serviceType].
      destruct (specificModel s) as [k|]; [|discriminate T]. rewrite T.
      specialize (Hs k eq_refl).
      change registry_spec with (map (fun c => (key c, service c)) model_cards) in Hs.
      apply in_map_iff in Hs as (card & E & Hin). injection E as <- <-.
      exists card. repeat split. exact Hin.
    + destruct Hx.
  - intros Hno.
    assert (G : ∀ s, specificModel s = None → ∀ body, ¬ In (Fetch body) (snd (run s es))).
    { induction es as [|e es IH]; intros s Hs body; [intros []|].
      simpl.
      assert (Hstep : specificModel (fst (step s e)) = None
                      ∧ ∀ b, ¬ In (Fetch b) (snd (step s e))).
      { destruct e as [n value|i|outcome random|]; simpl.
        - unfold onChange. destruct (has_onChange n); [|auto].
          destruct (handleInputChange (formData s) n value) as [|[]]; simpl;
            split; try assumption; intuition discriminate.
        - exfalso. apply (Hno i). left. reflexivity.
        - unfold handleSubmit. rewrite Hs. simpl. split; [assumption|].
          intuition discriminate.
        - simpl. auto. }
      destruct (step s e) as [s1 out1]. simpl in Hstep. destruct Hstep as [H1 H2].
      specialize (IH (fun i H => Hno i (or_intror H)) s1 H1 body).
      destruct (run s1 es) as [s2 out2]. simpl in *.
      intros Hin. apply in_app_or in Hin as [Hin | Hin]; [exact (H2 _ Hin) | auto]. }
    apply G. reflexivity.
Qed.

(** ** The completion bar *)

Section Completion.

Implicit Types (fd : gmap string field_value).

Lemma filter_length_full {A} (f : A → bool) (l : list A) :
  length (List.filter f l) = length l ↔ ∀ x, In x l → f x = true.
Proof.
  induction l as [|a l IH]; simpl; [tauto|].
  pose proof (List.filter_length_le f l) as B.
  destruct (f a) eqn:E; simpl; split.
  - intros H x [<- | Hx]; [exact E|]. apply IH; [lia | exact Hx].
  - intros H. f_equal. apply IH. auto.
  - intros H. lia.
  - intros H. specialize (H a (or_introl eq_refl)). congruence.
Qed.

Lemma filter_length_none {A} (f : A → bool) (l : list A) :
  length (List.filter f l) = 0%nat ↔ ∀ x, In x l → f x = false.
Proof.
  induction l as [|a l IH]; simpl; [tauto|].
  destruct (f a) eqn:E; simpl; split.
  - discriminate.
  - intros H. specialize (H a (or_introl eq_refl)). congruence.
  - intros H x [<- | Hx]; [exact E|]. now apply IH.
  - intros H. apply IH. auto.
Qed.

Lemma strict_eq_empty (v : field_value) : strict_eq v "" = true ↔ v = Str "".
Proof.
  destruct v as [|t]; simpl; [split; discriminate|].
  rewrite String.eqb_eq. split; [now intros -> | now intros [= ->]].
Qed.

Lemma filledFields_le fd : (filledFields fd <= 6)%nat.
Proof. unfold filledFields. apply (List.filter_length_le _ userRequiredFields). Qed.

Lemma completion_of_count fd :
  getFormCompletionPercentage fd
  = nth (filledFields fd) (map of_Z [0; 17; 33; 50; 67; 83; 100]) NaN.
Proof.
  unfold getFormCompletionPercentage. pose proof (filledFields_le fd) as B.
  destruct (filledFields fd) as [|[|[|[|[|[|[|n]]]]]]];
    try (exfalso; lia); vm_compute; reflexivity.
Qed.

End Completion.

(** X1. The completion percentage is one of 0, 17, 33, 50, 67, 83 and
    100. It is 100 exactly when none of the six fields the user fills is
    the empty string, 0 exactly when all of them are, and a write to any
    other property (the derived fields, [timeLimitation]) leaves it as it
    was. A property that is missing or [undefined] counts as filled. *)
Theorem completion_percentage (fd : gmap string field_value) :
  In (getFormCompletionPercentage fd) (map of_Z [0; 17; 33; 50; 67; 83; 100])
  ∧ (getFormCompletionPercentage fd = of_Z 100
     ↔ ∀ field, In field userRequiredFields → prop fd field ≠ Str "")
  ∧ (getFormCompletionPercentage fd = of_Z 0
     ↔ ∀ field, In field userRequiredFields → prop fd field = Str "")
  ∧ (∀ k v, ¬ In k userRequiredFields →
       getFormCompletionPercentage (<[k := v]> fd) = getFormCompletionPercentage fd)
  ∧ getFormCompletionPercentage ∅ = of_Z 100.
Proof.
  pose proof (filledFields_le fd) as B.
  pose proof (completion_of_count fd) as C.
  split; [|split; [|split; [|split]]].
  - rewrite C.
    destruct (filledFields fd) as [|[|[|[|[|[|[|n]]]]]]];
      try (exfalso; lia); simpl; tauto.
  - transitivity (filledFields fd = 6%nat).
    + rewrite C.
      destruct (filledFields fd) as [|[|[|[|[|[|[|n]]]]]]];
        try (exfalso; lia); vm_compute; split; intros H;
        first [reflexivity | discriminate H].
    + unfold filledFields.
      change 6%nat with (length userRequiredFields).
      rewrite filter_length_full. split; intros H field Hf; specialize (H field Hf).
      * intros E. apply strict_eq_empty in E. rewrite E in H. discriminate H.
      * destruct (strict_eq (prop fd field) "") eqn:E; [|reflexivity].
        apply strict_eq_empty in E. contradiction.
  - transitivity (filledFields fd = 0%nat).
    + rewrite C.
      destruct (filledFields fd) as [|[|[|[|[|[|[|n]]]]]]];
        try (exfalso; lia); vm_compute; split; intros H;
        first [reflexivity | discriminate H].
    + unfold filledFields. rewrite filter_length_none.
      split; intros H field Hf; specialize (H field Hf).
      * apply strict_eq_empty. now apply negb_false_iff in H.
      * apply negb_false_iff. now apply strict_eq_empty.
  - intros k v Hk. unfold getFormCompletionPercentage, filledFields.
    rewrite (List.filter_ext_in
               (fun field => negb (strict_eq (prop (<[k := v]> fd) field) ""))
               (fun field => negb (strict_eq (prop fd field) ""))
               userRequiredFields); [reflexivity|].
    intros field Hf.
    rewrite prop_insert_ne; [reflexivity|]. intros ->. contradiction.
  - vm_compute. reflexivity.
Qed.

(** ** The status indicators *)

Section Indicators.

Implicit Types (value : string).

Lemma indicator_quarterFluctuation value :
  value ≠ "" →
  getStatusIndicator "quarterFluctuation" (Str value)
  = if gt (parseFloat value) (of_Z 3) then "🟢 Good (Credit-Long = 1)"
    else if ge (parseFloat value) (of_Z 0) && le (parseFloat value) (of_Z 3)
    then "🟡 Normal (Credit-Long = 0)"
    else if lt (parseFloat value) (of_Z 0) then "🔴 Poor (Credit-Long = -1)"
    else "".
Proof.
  intros Hne. unfold getStatusIndicator.
  change (strict_eq (Str value) "") with (String.eqb value "").
  apply nonempty_neqb, negb_true_iff in Hne. rewrite Hne. reflexivity.
Qed.

Lemma indicator_continuous (n : string) value :
  n = "aph" ∨ n = "atl" → value ≠ "" →
  getStatusIndicator n (Str value)
  = if JsMath.eq (parseFloat value) (of_Z 1) then "🟢 Good"
    else if ge (parseFloat value) (of_Z 0) && lt (parseFloat value) (of_Z 1)
    then "🟡 Normal"
    else if lt (parseFloat value) (of_Z 0) then "🔴 Poor"
    else "".
Proof.
  intros Hn Hne. unfold getStatusIndicator.
  change (strict_eq (Str value) "") with (String.eqb value "").
  apply nonempty_neqb, negb_true_iff in Hne. rewrite Hne.
  destruct Hn as [-> | ->]; reflexivity.
Qed.

Lemma is_nan_true (x : float) : is_nan x = true → x = NaN.
Proof. destruct x; first [reflexivity | discriminate]. Qed.

(** A number that is not above [y] is equal to it or below it. *)
Lemma not_gt_cases (x y : float) :
  is_nan x = false → is_nan y = false → gt x y = false →
  (JsMath.eq x y = true ∧ lt x y = false) ∨ (JsMath.eq x y = false ∧ lt x y = true).
Proof.
  intros Hx Hy. destruct (SFcompare_total x y Hx Hy) as [c E].
  unfold gt, lt, JsMath.eq, SFltb, SFeqb.
  rewrite E, (SFcompare_antisym _ _ _ E). destruct c; simpl; auto; discriminate.
Qed.

End Indicators.

(** X6. The text under [quarterFluctuation] and the texts under the two
    derived fields always name the class the handler derived: for a
    non-empty value all three read Good when [creditLong] is ["1"],
    Normal when it is ["0"], Poor when it is ["-1"], and all three are
    blank when the value does not parse and nothing was derived. The
    indicator tests the bounds in the opposite order to the handler. *)
Theorem indicators_agree_with_derivation (value : string) :
  value ≠ "" →
  let q := parseFloat value in
  let d := calculatedValue q in
  (d = Str "1"
   ∧ getStatusIndicator "quarterFluctuation" (Str value) = "🟢 Good (Credit-Long = 1)"
   ∧ getStatusIndicator "creditLong" d = "🟢 Good (Fluctuation > 3)"
   ∧ getStatusIndicator "resultantFluctuation" d = "🟢 Good (Quarterly > 3)")
  ∨ (d = Str "0"
     ∧ getStatusIndicator "quarterFluctuation" (Str value)
       = "🟡 Normal (Credit-Long = 0)"
     ∧ getStatusIndicator "creditLong" d = "🟡 Normal (Fluctuation 0-3)"
     ∧ getStatusIndicator "resultantFluctuation" d = "🟡 Normal (Quarterly 0-3)")
  ∨ (d = Str "-1"
     ∧ getStatusIndicator "quarterFluctuation" (Str value)
       = "🔴 Poor (Credit-Long = -1)"
     ∧ getStatusIndicator "creditLong" d = "🔴 Poor (Fluctuation < 0)"
     ∧ getStatusIndicator "resultantFluctuation" d = "🔴 Poor (Quarterly < 0)")
  ∨ (is_nan q = true ∧ d = Undefined
     ∧ getStatusIndicator "quarterFluctuation" (Str value) = ""
     ∧ getStatusIndicator "creditLong" d = ""
     ∧ getStatusIndicator "resultantFluctuation" d = "").
Proof.
  intros Hne q d. subst d.
  rewrite (indicator_quarterFluctuation value Hne). fold q.
  destruct (is_nan q) eqn:N.
  - right; right; right. apply is_nan_true in N. rewrite N. repeat split.
  - destruct (calculatedValue_trichotomy q N) as [H | [[H0 H3] | H]].
    + right; right; left. rewrite (calculatedValue_neg q H).
      assert (G : gt q (of_Z 3) = false)
        by (apply (lt_zero_not_gt_pos q 6755399441055744 (-51)); exact H).
      rewrite G, (lt_not_ge _ _ H), H. repeat split.
    + right; left. rewrite (calculatedValue_mid q H0 H3).
      rewrite (le_not_gt _ _ H3), H0, H3. repeat split.
    + left. rewrite (calculatedValue_pos q H), H. repeat split.
Qed.

Lemma indicators_agree_with_derivation_witness :
  "5" ≠ ""
  ∧ getStatusIndicator "quarterFluctuation" (Str "5") = "🟢 Good (Credit-Long = 1)"
  ∧ getStatusIndicator "creditLong" (calculatedValue (parseFloat "5"))
    = "🟢 Good (Fluctuation > 3)".
Proof.
  split; [discriminate|].
  destruct (indicators_agree_with_derivation "5" ltac:(discriminate))
    as [(_ & A & B & _) | [(E & _) | [(E & _) | (E & _)]]];
    first [split; assumption | discriminate E].
Defined.

(** X7. For a non-empty value that the handler accepts for [aph] or
    [atl], the text under the field is Good when the number equals 1,
    Normal when it lies in [0, 1), Poor when it is negative, and blank
    only when the value does not parse. *)
Theorem continuous_indicator (n value : string) :
  n = "aph" ∨ n = "atl" → value ≠ "" →
  let x := parseFloat value in
  gt x (of_Z 1) = false → lt x (of_Z (-10)) = false →
  (JsMath.eq x (of_Z 1) = true ∧ getStatusIndicator n (Str value) = "🟢 Good")
  ∨ (ge x (of_Z 0) = true ∧ lt x (of_Z 1) = true
     ∧ getStatusIndicator n (Str value) = "🟡 Normal")
  ∨ (lt x (of_Z 0) = true ∧ getStatusIndicator n (Str value) = "🔴 Poor")
  ∨ (is_nan x = true ∧ getStatusIndicator n (Str value) = "").
Proof.
  intros Hn Hne x Hhi Hlo. rewrite (indicator_continuous n value Hn Hne). fold x.
  destruct (is_nan x) eqn:N.
  - right; right; right. apply is_nan_true in N. rewrite N. split; reflexivity.
  - destruct (not_gt_cases x (of_Z 1) N eq_refl Hhi) as [[E L] | [E L]]; rewrite E.
    + left. split; reflexivity.
    + rewrite L, (ge_negb_lt x (of_Z 0) N eq_refl).
      destruct (lt x (of_Z 0)) eqn:Z0; simpl.
      * right; right; left. split; reflexivity.
      * right; left. repeat split.
Qed.

Lemma continuous_indicator_witness :
  getStatusIndicator "aph" (Str "0.25") = "🟡 Normal"
  ∧ getStatusIndicator "atl" (Str "1.0") = "🟢 Good".
Proof.
  split.
  - destruct (continuous_indicator "aph" "0.25" (or_introl eq_refl)
                ltac:(discriminate) eq_refl eq_refl)
      as [[E _] | [(_ & _ & A) | [[E _] | [E _]]]];
      first [exact A | discriminate E].
  - destruct (continuous_indicator "atl" "1.0" (or_intror eq_refl)
                ltac:(discriminate) eq_refl eq_refl)
      as [[_ A] | [(_ & E & _) | [[E _] | [E _]]]];
      first [exact A | discriminate E].
Defined.

(** ** How changes compose *)

(** X8. Whether the handler accepts a value depends on the field and
    the value only, and an accepted change overwrites everything an
    earlier change of the same field wrote: the form after the two changes
    is the form after the second alone. In particular a change made twice
    is a change made once. *)
Theorem last_accepted_change_wins
    (fd updated : gmap string field_value) (n value1 value2 : string) :
  handleInputChange fd n value2 = SetFormData updated →
  after_change (after_change fd n value1) n value2 = updated
  ∧ after_change (after_change fd n value2) n value2 = updated
  ∧ ∀ fd', ∃ updated', handleInputChange fd' n value2 = SetFormData updated'.
Proof.
  unfold after_change, handleInputChange. cbv zeta.
  intros H. repeat split.
  - repeat match goal with
           | H : context [if ?c then _ else _] |- _ => destruct c eqn:?
           end;
      try discriminate H; injection H as <-;
      repeat match goal with
             | |- context [if ?c then _ else _] => destruct c eqn:?
             end;
      try reflexivity;
      apply map_eq; intros k; rewrite !lookup_insert;
      repeat case_decide; congruence.
  - repeat match goal with
           | H : context [if ?c then _ else _] |- _ => destruct c eqn:?
           end;
      try discriminate H; injection H as <-;
      apply map_eq; intros k; rewrite !lookup_insert;
      repeat case_decide; congruence.
  - intros fd'.
    repeat match goal with
           | H : context [if ?c then _ else _] |- _ => destruct c eqn:?
           end;
      try discriminate H; eauto.
Qed.

Lemma last_accepted_change_wins_witness :
  handleInputChange initialFormData "quarterFluctuation" "-2"
    = SetFormData (after_change initialFormData "quarterFluctuation" "-2")
  ∧ after_change (after_change initialFormData "quarterFluctuation" "7")
      "quarterFluctuation" "-2"
    = after_change initialFormData "quarterFluctuation" "-2".
Proof.
  assert (H : handleInputChange initialFormData "quarterFluctuation" "-2"
              = SetFormData (after_change initialFormData "quarterFluctuation" "-2"))
    by reflexivity.
  split; [exact H|].
  exact (proj1 (last_accepted_change_wins initialFormData _ "quarterFluctuation"
                  "7" "-2" H)).
Defined.

(** ** The result card and the chart *)

(** X9. For a confidence written with one decimal between 0.0 and
    100.0, as [toFixed(1)] writes it, the uncertainty under the pie chart
    is its complement to 100 with one decimal, digit for digit: the
    rounding of [100 - parseFloat(confidence)] never shows. *)
Theorem chart_uncertainty_is_complement (prediction : jsval) (n : Z) :
  0 <= n <= 1000 →
  ToString_jsval (get prediction "confidence") = tenths n →
  PredictionChart.uncertainty_legend prediction = tenths (1000 - n).
Proof.
  intros Hn E.
  unfold PredictionChart.uncertainty_legend. rewrite E.
  assert (A : forallb
                (fun i => String.eqb
                   (toFixed 1 (JsMath.sub (of_Z 100) (parseFloat (tenths (Z.of_nat i)))))
                   (tenths (1000 - Z.of_nat i)))
                (seq 0 1001) = true) by (vm_compute; reflexivity).
  rewrite forallb_forall in A.
  specialize (A (Z.to_nat n)). rewrite Z2Nat.id in A by lia.
  apply String.eqb_eq, A, in_seq. lia.
Qed.

Lemma chart_uncertainty_is_complement_witness :
  PredictionChart.uncertainty_legend
    (simulatePrediction sample_form (of_decimal false 515 (-3))) = "29.7".
Proof.
  apply (chart_uncertainty_is_complement
           (simulatePrediction sample_form (of_decimal false 515 (-3))) 703).
  - lia.
  - vm_compute. reflexivity.
Defined.

(** X18. For such a confidence the two slices of the pie are both
    non-negative and add up to 100 exactly, as numbers: the rounding of
    the subtraction is undone by the addition. *)
Theorem chart_slices_make_100 (prediction : jsval) (n : Z) :
  0 <= n <= 1000 →
  ToString_jsval (get prediction "confidence") = tenths n →
  ∃ c u, PredictionChart.confidenceData prediction
         = [("Confidence", c); ("Uncertainty", u)]
    ∧ JsMath.eq (add c u) (of_Z 100) = true
    ∧ ge c (of_Z 0) = true ∧ ge u (of_Z 0) = true.
Proof.
  intros Hn E. unfold PredictionChart.confidenceData. rewrite E.
  eexists _, _. split; [reflexivity|].
  assert (A : forallb
                (fun i =>
                   let c := parseFloat (tenths (Z.of_nat i)) in
                   let u := JsMath.sub (of_Z 100) c in
                   JsMath.eq (add c u) (of_Z 100)
                   && ge c (of_Z 0) && ge u (of_Z 0))
                (seq 0 1001) = true) by (vm_compute; reflexivity).
  rewrite forallb_forall in A.
  specialize (A (Z.to_nat n)). rewrite Z2Nat.id in A by lia.
  cbv zeta in A.
  assert (I : In (Z.to_nat n) (seq 0 1001)) by (apply in_seq; lia).
  apply A in I. apply andb_true_iff in I as [I U].
  apply andb_true_iff in I as [S C]. auto.
Qed.

Lemma chart_slices_make_100_witness :
  ∃ c u, PredictionChart.confidenceData
           (simulatePrediction sample_form (of_decimal false 515 (-3)))
         = [("Confidence", c); ("Uncertainty", u)]
    ∧ JsMath.eq (add c u) (of_Z 100) = true.
Proof.
  destruct (chart_slices_make_100
              (simulatePrediction sample_form (of_decimal false 515 (-3))) 703)
    as (c & u & E & S & _).
  - lia.
  - vm_compute. reflexivity.
  - exists c, u. split; [exact E | exact S].
Defined.

(** X10. The card of a fallback result shows the placeholder ['150'] as
    processing time, since the fallback sets no [processingTime]. Its
    [factors] are [creditScore], [paymentHistory] and [debtRatio], while
    the card reads [creditScore], [creditPaymentHistory] and
    [avgPaymentHistory]: when the key factors are shown, the last two are
    [undefined]. Drawing the card never throws. *)
Theorem fallback_result_on_card (fd : gmap string field_value) (random : float) :
  let r := simulatePrediction fd random in
  ResultView.processingTime r = JStr "150"
  ∧ own_keys (get r "factors") = ["creditScore"; "paymentHistory"; "debtRatio"]
  ∧ (ResultView.result_panel r = Some ResultView.ImprovementTips
     ∨ ∃ creditScore,
         ResultView.result_panel r
         = Some (ResultView.KeyFactors (JStr creditScore) JUndefined JUndefined)).
Proof.
  unfold simulatePrediction.
  destruct (80 <=? score fd), (50 <=? score fd); cbv zeta; repeat split;
    first [left; reflexivity | right; eexists; reflexivity].
Qed.



(** ** The submit with its [await] *)

Section Async.

Import AsyncPage.

Implicit Types (s : AsyncPage.state) (e : AsyncPage.event)
  (es : list AsyncPage.event).

Lemma async_run_invariant (I : AsyncPage.state → Prop) :
  (∀ s e, I s → I (fst (AsyncPage.step s e))) →
  ∀ es s, I s → I (fst (AsyncPage.run s es)).
Proof.
  intros Hstep es. induction es as [|e es IH]; intros s Hs; [exact Hs|].
  simpl. specialize (Hstep s e Hs).
  destruct (AsyncPage.step s e) as [s1 out1]. specialize (IH s1 Hstep).
  destruct (AsyncPage.run s1 es) as [s2 out2]. exact IH.
Qed.

Lemma async_initial_kept : async_kept AsyncPage.initial.
Proof.
  split; [exact initialFormData_kept|]. split; [intros fd [=]|].
  simpl. split; [discriminate | congruence].
Qed.

Lemma async_step_kept s e : async_kept s → async_kept (fst (AsyncPage.step s e)).
Proof.
  intros (K & A & L). destruct e as [n value|i| |outcome random|]; simpl.
  - split; [|split; assumption].
    exact (step_kept (page s) (Page.Change n value) K).
  - split; [|split; assumption].
    exact (step_kept (page s) (Page.ClickModel i) K).
  - unfold submit. destruct (loading s) eqn:E;
      [simpl; unfold async_kept; rewrite E; exact (conj K (conj A L))|].
    destruct (negb (Page.truthy (Page.specificModel (page s))));
      [simpl; unfold async_kept; rewrite E; exact (conj K (conj A L))|].
    simpl. split; [exact K|]. split; [now intros fd [= <-]|].
    split; [discriminate | reflexivity].
  - unfold settle. destruct (awaiting s) as [fd0|] eqn:E;
      [|simpl; unfold async_kept; rewrite E; exact (conj K (conj A L))].
    simpl. split; [exact K|]. split; [intros fd [=]|].
    split; [discriminate | intros H; exfalso; apply H; reflexivity].
  - split; [|split; assumption]. exact initialFormData_kept.
Qed.

Lemma count_fetch_app (a b : list Page.effect) :
  count_fetch (a ++ b) = (count_fetch a + count_fetch b)%nat.
Proof. unfold count_fetch. now rewrite List.filter_app, length_app. Qed.

Lemma async_fetch_bound es :
  ∀ s, (count_fetch (snd (AsyncPage.run s es))
        <= count_settle es + (if loading s then 0 else 1))%nat.
Proof.
  induction es as [|e es IH]; intros s; [destruct (loading s); cbv; lia|].
  simpl.
  assert (B : (count_fetch (snd (AsyncPage.step s e))
               + (if loading (fst (AsyncPage.step s e)) then 0 else 1)
               <= count_settle [e] + (if loading s then 0 else 1))%nat).
  { unfold count_fetch, count_settle.
    destruct e as [n value|i| |outcome random|]; simpl.
    - unfold Page.onChange. destruct (Page.has_onChange n);
        [|destruct (loading s); simpl; lia].
      destruct (handleInputChange _ n value) as [|[]];
        destruct (loading s); simpl; lia.
    - unfold Page.onClickModel.
      destruct (Page.model_cards !! i); destruct (loading s); simpl; lia.
    - unfold submit. destruct (loading s) eqn:E; [simpl; rewrite E; simpl; lia|].
      destruct (negb _); simpl; rewrite ?E; simpl; lia.
    - unfold settle. destruct (awaiting s); simpl; destruct (loading s); simpl; lia.
    - destruct (loading s); simpl; lia. }
  destruct (AsyncPage.step s e) as [s1 out1]. specialize (IH s1).
  destruct (AsyncPage.run s1 es) as [s2 out2]. simpl in *.
  rewrite count_fetch_app.
  assert (C : count_settle (e :: es) = (count_settle [e] + count_settle es)%nat)
    by (destruct e; reflexivity).
  rewrite C. destruct (loading s), (loading s1); lia.
Qed.

End Async.



(** X13. While an answer is awaited the submit button is disabled and
    a submit sends nothing, so at most one request is unanswered at any
    time: a run has sent at most one request more than it has received
    answers, and [loading] is set exactly while an answer is awaited. *)
Theorem one_request_at_a_time (es : list AsyncPage.event) :
  let s := fst (AsyncPage.run AsyncPage.initial es) in
  (count_fetch (snd (AsyncPage.run AsyncPage.initial es)) <= count_settle es + 1)%nat
  ∧ (AsyncPage.loading s = true ↔ AsyncPage.awaiting s ≠ None)
  ∧ (AsyncPage.loading s = true →
     AsyncPage.step s AsyncPage.SubmitForm = (s, [])).
Proof.
  intros s. split; [exact (async_fetch_bound es AsyncPage.initial)|].
  split.
  - apply (async_run_invariant async_kept async_step_kept es AsyncPage.initial
             async_initial_kept).
  - intros H. simpl. unfold AsyncPage.submit. now rewrite H.
Qed.

(** X14. An answer that fails (the fetch rejected, or a status that is
    not ok) always puts ['Very_Bad'] with ['Not eligible'] on the card,
    whatever happened on the page before and while it was awaited: the
    fallback scores the form of the submit, and that form is one the
    handler has checked. *)
Theorem async_fallback_always_declines
    (es : list AsyncPage.event) (random : float)
    (fd : gmap string field_value) :
  let s := fst (AsyncPage.run AsyncPage.initial es) in
  AsyncPage.awaiting s = Some fd →
  ∀ outcome, outcome = FetchRejected ∨ (∃ json, outcome = Response false json) →
    ∃ r, Page.prediction
           (AsyncPage.page (fst (AsyncPage.step s (AsyncPage.Settle outcome random))))
         = Some r
      ∧ r = simulatePrediction fd random
      ∧ get r "prediction" = JStr "Very_Bad"
      ∧ get r "loanRange" = JStr "Not eligible".
Proof.
  intros s A outcome Ho.
  destruct (async_run_invariant async_kept async_step_kept es AsyncPage.initial
              async_initial_kept) as (_ & K & _).
  fold s in K. specialize (K fd A).
  exists (simulatePrediction fd random).
  split.
  - simpl. unfold AsyncPage.settle. rewrite A. simpl.
    destruct Ho as [-> | [json ->]]; reflexivity.
  - split; [reflexivity|]. apply low_score_Very_Bad.
    rewrite (kept_score fd K). destruct (gt _ lit_0_7); lia.
Qed.

Lemma async_fallback_always_declines_witness :
  ∃ r, Page.prediction
         (AsyncPage.page
            (fst (AsyncPage.run AsyncPage.initial
                    [AsyncPage.ClickModel 1; AsyncPage.Change "cph" "1";
                     AsyncPage.SubmitForm; AsyncPage.Change "cph" "-1";
                     AsyncPage.Settle FetchRejected pos_zero])))
       = Some r
    ∧ get r "prediction" = JStr "Very_Bad".
Proof.
  destruct (async_fallback_always_declines
              [AsyncPage.ClickModel 1; AsyncPage.Change "cph" "1";
               AsyncPage.SubmitForm; AsyncPage.Change "cph" "-1"]
              pos_zero (after_change initialFormData "cph" "1") eq_refl
              FetchRejected (or_introl eq_refl)) as (r & H & _ & P & _).
  exists r. split; [exact H | exact P].
Defined.

(** X15. The chart section is switched on exactly when a result is on
    the page: a model click and a reset clear both, an answer sets both. *)
Theorem chart_exactly_with_result (es : list AsyncPage.event) :
  let s := fst (AsyncPage.run AsyncPage.initial es) in
  Page.showChart (AsyncPage.page s) = true
  ↔ Page.prediction (AsyncPage.page s) ≠ None.
Proof.
  intros s. subst s.
  apply (async_run_invariant chart_with_result);
    [|split; [discriminate | intros H; exfalso; apply H; reflexivity]].
  intros s e H. unfold chart_with_result in *.
  destruct e as [n value|i| |outcome random|]; simpl.
  - unfold Page.onChange. destruct (Page.has_onChange n); [|exact H].
    destruct (handleInputChange _ n value) as [|[]]; exact H.
  - unfold Page.onClickModel.
    destruct (Page.model_cards !! i); [|exact H].
    split; [discriminate | intros N; exfalso; apply N; reflexivity].
  - unfold AsyncPage.submit. destruct (AsyncPage.loading s); [exact H|].
    destruct (negb _); exact H.
  - unfold AsyncPage.settle. destruct (AsyncPage.awaiting s); [|exact H].
    split; [discriminate | reflexivity].
  - split; [discriminate | intros N; exfalso; apply N; reflexivity].
Qed.

(** X16. The form part of every request the page sends is a form the
    handler has checked: it has the nine properties of the form, and its
    [creditLong] and [resultantFluctuation] are the derivation of the
    [quarterFluctuation] it carries. *)
Theorem requests_carry_checked_form (es : list Page.event) (body : Page.request) :
  In (Page.Fetch body) (snd (Page.run Page.initial es)) →
  kept_form (Page.body_form body)
  ∧ dom (Page.body_form body) = dom initialFormData
  ∧ ∃ value, prop (Page.body_form body) "quarterFluctuation" = Str value
      ∧ prop (Page.body_form body) "creditLong"
        = (if negb (String.eqb value "")
           then calculatedValue (parseFloat value) else Str "")
      ∧ prop (Page.body_form body) "resultantFluctuation"
        = prop (Page.body_form body) "creditLong".
Proof.
  intros Hin.
  assert (K : kept_form (Page.body_form body)).
  { revert Hin.
    apply (run_effects (fun s => kept_form (Page.formData s))
             (fun x => match x with
                       | Fetch b => kept_form (body_form b)
                       | Alert _ => True
                       end)
             step_kept); [|exact initialFormData_kept].
    intros s e x Hs Hx. destruct x as [msg|b]; [exact I|].
    destruct e as [n value|i|outcome random|]; simpl in Hx.
    - unfold onChange in Hx. destruct (has_onChange n); [|destruct Hx].
      destruct (handleInputChange (formData s) n value) as [|[]]; simpl in Hx;
        intuition discriminate.
    - unfold onClickModel in Hx. destruct (model_cards !! i); destruct Hx.
    - unfold handleSubmit in Hx.
      destruct (negb (truthy (specificModel s))); simpl in Hx;
        destruct Hx as [Hx | []]; [discriminate Hx|].
      injection Hx as <-. exact Hs.
    - destruct Hx. }
  split; [exact K|]. split; [exact (k_dom _ K)|].
  destruct (k_quarterFluctuation _ K) as (value & E & _).
  exists value. split; [exact E|].
  rewrite (k_resultantFluctuation _ K), (k_creditLong _ K), E, derived_of_Str. auto.
Qed.

Lemma requests_carry_checked_form_witness :
  In (Page.Fetch (Page.request_body
                    (fst (Page.run Page.initial
                            [Page.ClickModel 0; Page.Change "quarterFluctuation" "4"]))))
     (snd (Page.run Page.initial
             [Page.ClickModel 0; Page.Change "quarterFluctuation" "4";
              Page.Submit FetchRejected pos_zero]))
  ∧ kept_form
      (Page.body_form
         (Page.request_body
            (fst (Page.run Page.initial
                    [Page.ClickModel 0; Page.Change "quarterFluctuation" "4"])))).
Proof.
  assert (H : In (Page.Fetch (Page.request_body
                    (fst (Page.run Page.initial
                            [Page.ClickModel 0; Page.Change "quarterFluctuation" "4"]))))
     (snd (Page.run Page.initial
             [Page.ClickModel 0; Page.Change "quarterFluctuation" "4";
              Page.Submit FetchRejected pos_zero]))) by (left; reflexivity).
  split; [exact H|].
  exact (proj1 (requests_carry_checked_form _ _ H)).
Defined.

(** X17. Changes of two different inputs of the form commute: filling
    the fields in either order gives the same form state, whether each
    value is accepted or rejected. *)
Theorem changes_of_different_fields_commute
    (fd : gmap string field_value) (n1 n2 value1 value2 : string) :
  Page.has_onChange n1 = true → Page.has_onChange n2 = true → n1 ≠ n2 →
  after_change (after_change fd n1 value1) n2 value2
  = after_change (after_change fd n2 value2) n1 value1.
Proof.
  intros H1 H2 Hne.
  destruct (has_onChange_cases n1 H1) as [E1 | [E1 | [E1 | [E1 | [E1 | E1]]]]];
    destruct (has_onChange_cases n2 H2) as [E2 | [E2 | [E2 | [E2 | [E2 | E2]]]]];
    subst n1 n2; try contradiction; clear H1 H2 Hne;
    unfold after_change;
    rewrite ?handle_quarterFluctuation;
    rewrite ?(handle_discrete _ "creditShort" _ (or_introl eq_refl)),
            ?(handle_discrete _ "cph" _ (or_intror (or_introl eq_refl))),
            ?(handle_discrete _ "ctl" _ (or_intror (or_intror eq_refl))),
            ?(handle_continuous _ "aph" _ (or_introl eq_refl)),
            ?(handle_continuous _ "atl" _ (or_intror eq_refl));
    cbv zeta;
    repeat match goal with
           | |- context [if ?c then Return _ else _] => destruct c
           end;
    rewrite ?handle_quarterFluctuation;
    rewrite ?(handle_discrete _ "creditShort" _ (or_introl eq_refl)),
            ?(handle_discrete _ "cph" _ (or_intror (or_introl eq_refl))),
            ?(handle_discrete _ "ctl" _ (or_intror (or_intror eq_refl))),
            ?(handle_continuous _ "aph" _ (or_introl eq_refl)),
            ?(handle_continuous _ "atl" _ (or_intror eq_refl));
    cbv zeta;
    repeat match goal with
           | |- context [if ?c then Return _ else _] => destruct c
           end;
    try reflexivity;
    apply map_eq; intros k; rewrite !lookup_insert;
    repeat case_decide; congruence.
Qed.

Lemma changes_of_different_fields_commute_witness :
  after_change (after_change initialFormData "quarterFluctuation" "5") "aph" "0.5"
  = after_change (after_change initialFormData "aph" "0.5") "quarterFluctuation" "5".
Proof.
  apply (changes_of_different_fields_commute initialFormData
           "quarterFluctuation" "aph" "5" "0.5");
    first [reflexivity | discriminate].
Defined.
